(** * LocalLlama gateway: the conversation store and the upstream proxy

    A shallow embedding of [server/main.py].  JSON values are the values of
    Python's [json] module (null, booleans, integers, floats, strings, lists
    and insertion-ordered objects), a Python [str] is kept as the text of
    its UTF-8 encoding, and [bytes] as a list of bytes.  The handlers run in
    a small state-and-exception monad over a [world]: the two storage
    artifacts (the index file and the directory of conversation documents,
    one file per name), the process environment, the inference daemon seen
    as a function from requests to responses, and the two sources the
    handlers read, the clock and the uuid generator.

    The file system is POSIX.  The directory of documents is a map from file
    names to contents.  A path built from the id of a payload is followed
    through its separators as far as the two artifacts go; what the file
    system answers beyond them is a parameter of the world.  The daemon
    always answers: failures of the transport are left out.  So are the
    limits of the machine: a write to an artifact succeeds, and the values
    are no larger or deeper than [json.dumps] and the interpreter's
    recursion limit take.  The body of a request has been parsed when a
    handler starts, and what the web framework does with a handler's answer
    or exception is not part of the program. *)

From Stdlib Require Import ZArith Ascii String Strings.Byte List Bool Lia.
From Stdlib Require Import DecimalString DecimalZ DecimalPos.
From stdpp Require Import base option list gmap strings.
Import ListNotations.

Local Open Scope string_scope.
Local Open Scope list_scope.

(** ** JSON values, as [json.loads] builds them *)

Module Json.

(** A Python [float], a binary floating-point number: zero, infinity and
    not-a-number, or [mantissa * 2 ^ exponent], each with its sign. *)
Inductive float : Type :=
| FZero (negative : bool)
| FInf (negative : bool)
| FNaN
| FFinite (negative : bool) (mantissa : positive) (exponent : Z).

Unset Elimination Schemes.
Inductive json : Type :=
| JNull
| JBool (b : bool)
| JInt (n : Z)
| JFloat (f : float)
| JStr (s : string)
| JArr (items : list json)
| JObj (members : list (string * json)).
Set Elimination Schemes.

(** A Python [dict] with string keys, in insertion order. *)
Abbreviation dict := (list (string * json)).

Section Induction.
Variable P : json -> Prop.
Hypothesis Hnull : P JNull.
Hypothesis Hbool : forall b, P (JBool b).
Hypothesis Hint : forall n, P (JInt n).
Hypothesis Hfloat : forall f, P (JFloat f).
Hypothesis Hstr : forall s, P (JStr s).
Hypothesis Harr : forall l, Forall P l -> P (JArr l).
Hypothesis Hobj : forall d : dict, Forall (fun kv => P (snd kv)) d -> P (JObj d).

Fixpoint json_ind (v : json) : P v :=
  match v with
  | JNull => Hnull
  | JBool b => Hbool b
  | JInt n => Hint n
  | JFloat f => Hfloat f
  | JStr s => Hstr s
  | JArr l =>
      Harr l ((fix all (l : list json) : Forall P l :=
                 match l with
                 | [] => List.Forall_nil P
                 | x :: l' => List.Forall_cons P x l' (json_ind x) (all l')
                 end) l)
  | JObj d =>
      Hobj d ((fix all (d : dict) : Forall (fun kv => P (snd kv)) d :=
                 match d with
                 | [] => List.Forall_nil _
                 | kv :: d' => List.Forall_cons _ kv d' (json_ind (snd kv)) (all d')
                 end) d)
  end.
End Induction.

(** [d.get(k)] on the members of a dict: [None] when the key is absent. *)
Fixpoint dict_get (k : string) (d : dict) : option json :=
  match d with
  | [] => None
  | (k', v) :: d' => if String.eqb k' k then Some v else dict_get k d'
  end.

(** [d[k] = v]: the value is replaced where the key stands, a new key goes
    to the end. *)
Fixpoint dict_set (k : string) (v : json) (d : dict) : dict :=
  match d with
  | [] => [(k, v)]
  | (k', v') :: d' =>
      if String.eqb k' k then (k', v) :: d' else (k', v') :: dict_set k v d'
  end.

(** Python truth value: [None], [False], [0], [0.0] and the empty string,
    list and dict are false. *)
Definition truthy (v : json) : bool :=
  match v with
  | JNull => false
  | JBool b => b
  | JInt n => negb (n =? 0)%Z
  | JFloat f => match f with FZero _ => false | _ => true end
  | JStr s => negb (String.eqb s "")
  | JArr l => match l with [] => false | _ => true end
  | JObj d => match d with [] => false | _ => true end
  end.

Definition Z_of_bool (b : bool) : Z := if b then 1%Z else 0%Z.

Definition signed (negative : bool) (m : positive) : Z :=
  if negative then Z.neg m else Z.pos m.

(** [f == n] for a float and an integer, which Python compares by their
    exact values: [m * 2 ^ e = n]. *)
Definition float_eq_int (f : float) (n : Z) : bool :=
  match f with
  | FZero _ => (n =? 0)%Z
  | FFinite s m e =>
      if (0 <=? e)%Z then (signed s m * 2 ^ e =? n)%Z
      else (signed s m =? n * 2 ^ (- e))%Z
  | _ => false
  end.

(** [f == g] for two floats: the two zeros are equal, not-a-number equals
    nothing. *)
Definition float_eq (f g : float) : bool :=
  match f, g with
  | FZero _, FZero _ => true
  | FInf s, FInf t => Bool.eqb s t
  | FFinite s m e, FFinite t n d =>
      let low := Z.min e d in
      (signed s m * 2 ^ (e - low) =? signed t n * 2 ^ (d - low))%Z
  | _, _ => false
  end.

(** Python [==] on JSON values: [bool] is a subtype of [int] ([True == 1]),
    numbers compare by value ([1 == 1.0]), lists compare element by element,
    dicts by key whatever the order. *)
Fixpoint py_eq (a b : json) : bool :=
  match a, b with
  | JNull, JNull => true
  | JBool x, JBool y => Bool.eqb x y
  | JBool x, JInt y => (Z_of_bool x =? y)%Z
  | JInt x, JBool y => (x =? Z_of_bool y)%Z
  | JInt x, JInt y => (x =? y)%Z
  | JFloat x, JFloat y => float_eq x y
  | JFloat x, JInt y => float_eq_int x y
  | JInt x, JFloat y => float_eq_int y x
  | JFloat x, JBool y => float_eq_int x (Z_of_bool y)
  | JBool x, JFloat y => float_eq_int y (Z_of_bool x)
  | JStr x, JStr y => String.eqb x y
  | JArr xs, JArr ys =>
      (fix all (xs ys : list json) : bool :=
         match xs, ys with
         | [], [] => true
         | x :: xs', y :: ys' => py_eq x y && all xs' ys'
         | _, _ => false
         end) xs ys
  | JObj xs, JObj ys =>
      Nat.eqb (length xs) (length ys)
      && forallb (fun kv => match dict_get (fst kv) ys with
                            | Some w => py_eq (snd kv) w
                            | None => false
                            end) xs
  | _, _ => false
  end.

End Json.
Import Json.

(** ** UTF-8, as [bytes.decode] and [str.encode] see it

    A [str] is held as its UTF-8 text, so encoding is the identity on the
    bytes and decoding is a check of the byte sequence.  The decoder follows
    CPython's: an invalid start byte is an error of one byte, an invalid
    continuation byte an error over the bytes read so far of that sequence,
    and an input that stops inside a sequence an error over what is left.
    A [str] that no UTF-8 text stands for (one with a lone surrogate, which
    [json.loads] builds from an escape) is held as bytes that do not decode:
    [encodes] tells the two apart. *)

Module Utf8.

Abbreviation bytes := (list byte).

Definition code (b : byte) : N := Byte.to_N b.

Definition is_continuation (b : byte) : bool :=
  ((0x80 <=? code b) && (code b <=? 0xBF))%N.

(** The [errors] argument of [bytes.decode]. *)
Inductive errors := Strict | Ignore | Replace.

Definition scalar (bs : bytes) (k : option bytes) : option bytes :=
  match k with
  | Some out => Some (bs ++ out)
  | None => None
  end.

(** U+FFFD, the replacement character. *)
Definition replacement : bytes := [xef; xbf; xbd].

(** What the handler makes of an error: [strict] raises, [ignore] drops
    the bytes of the error and goes on with [k], [replace] puts one
    replacement character in their place. *)
Definition on_error (h : errors) (k : option bytes) : option bytes :=
  match h with
  | Strict => None
  | Ignore => k
  | Replace => scalar replacement k
  end.

(** Second byte of a three-byte sequence: E0 needs A0..BF (no overlong
    form), ED needs 80..9F (no surrogate). *)
Definition second_of_3 (b0 b1 : byte) : bool :=
  is_continuation b1
  && negb (if (code b1 <? 0xA0)%N then (code b0 =? 0xE0)%N else (code b0 =? 0xED)%N).

(** Second byte of a four-byte sequence: F0 needs 90..BF, F4 needs 80..8F. *)
Definition second_of_4 (b0 b1 : byte) : bool :=
  is_continuation b1
  && negb (if (code b1 <? 0x90)%N then (code b0 =? 0xF0)%N else (code b0 =? 0xF4)%N).

Fixpoint decode (h : errors) (bs : bytes) {struct bs} : option bytes :=
  match bs with
  | [] => Some []
  | b0 :: r0 =>
      if (code b0 <? 0x80)%N then scalar [b0] (decode h r0)
      else if (code b0 <? 0xC2)%N then on_error h (decode h r0)
      else if (code b0 <? 0xE0)%N then
        match r0 with
        | [] => on_error h (Some [])
        | b1 :: r1 =>
            if is_continuation b1 then scalar [b0; b1] (decode h r1)
            else on_error h (decode h r0)
        end
      else if (code b0 <? 0xF0)%N then
        match r0 with
        | [] => on_error h (Some [])
        | b1 :: r1 =>
            if second_of_3 b0 b1 then
              match r1 with
              | [] => on_error h (Some [])
              | b2 :: r2 =>
                  if is_continuation b2 then scalar [b0; b1; b2] (decode h r2)
                  else on_error h (decode h r1)
              end
            else on_error h (decode h r0)
        end
      else if (code b0 <? 0xF5)%N then
        match r0 with
        | [] => on_error h (Some [])
        | b1 :: r1 =>
            if second_of_4 b0 b1 then
              match r1 with
              | [] => on_error h (Some [])
              | b2 :: r2 =>
                  if is_continuation b2 then
                    match r2 with
                    | [] => on_error h (Some [])
                    | b3 :: r3 =>
                        if is_continuation b3
                        then scalar [b0; b1; b2; b3] (decode h r3)
                        else on_error h (decode h r2)
                    end
                  else on_error h (decode h r1)
              end
            else on_error h (decode h r0)
        end
      else on_error h (decode h r0)
  end.

(** [s.encode("utf-8")] *)
Definition encode (s : string) : bytes := list_byte_of_string s.

(** [b.decode("utf-8")]: [None] stands for [UnicodeDecodeError]. *)
Definition decode_strict (bs : bytes) : option string :=
  match decode Strict bs with
  | Some out => Some (string_of_list_byte out)
  | None => None
  end.

(** [b.decode("utf-8", "ignore")] *)
Definition decode_ignore (bs : bytes) : string :=
  match decode Ignore bs with
  | Some out => string_of_list_byte out
  | None => ""
  end.

(** [b.decode("utf-8", "replace")] *)
Definition decode_replace (bs : bytes) : string :=
  match decode Replace bs with
  | Some out => string_of_list_byte out
  | None => ""
  end.

(** Whether [s.encode("utf-8")] returns: it raises [UnicodeEncodeError] on
    a lone surrogate. *)
Definition encodes (s : string) : bool :=
  match decode Strict (list_byte_of_string s) with
  | Some _ => true
  | None => false
  end.

Definition is_ascii (s : string) : bool :=
  forallb (fun b => (code b <? 0x80)%N) (list_byte_of_string s).

End Utf8.
Import Utf8.

(** ** Exceptions *)

Inductive exn : Type :=
| HTTPException (status_code : Z) (detail : string)
| FileNotFoundError
| NotADirectoryError
| UnicodeDecodeError
| UnicodeEncodeError
| JSONDecodeError
| ValueError
| RecursionError
| OSError (errno : Z)
| KeyError (key : string)
| TypeError
| AttributeError.

Inductive result (A : Type) : Type :=
| Ok (a : A)
| Raise (e : exn).
Arguments Ok {A} a.
Arguments Raise {A} e.

(** ** The [json] module

    [json.dumps] and [json.loads] are the standard library's, not this
    program's: they are taken through an interface with the facts the store
    relies on.  [json_dumps] stands for [json.dumps(_, indent=2)], whose
    output is ASCII ([ensure_ascii] is left at its default).  [json.loads]
    has three outcomes on a text.  It raises [json.JSONDecodeError]:
    [json_loads] is [None].  It raises another exception ([ValueError] on
    an integer literal of more than 4300 digits, [RecursionError] on a
    nesting too deep for the interpreter): [json_refuses] is that
    exception.  Or it returns the value [json_loads] gives.  What it returns
    or raises on the bytes of an upstream body, which [response.json()]
    hands to it, is [json_loads_bytes]. *)

Class JsonCodec := {
  json_dumps : json -> string;
  json_loads : string -> option json;
  json_refuses : string -> option exn;
  json_loads_bytes : bytes -> result json;
  json_loads_dumps : forall v, json_loads (json_dumps v) = Some v;
  json_dumps_accepted : forall v, json_refuses (json_dumps v) = None;
  json_dumps_ascii : forall v, is_ascii (json_dumps v) = true;
  json_loads_brackets : json_loads "[]" = Some (JArr []);
  json_brackets_accepted : json_refuses "[]" = None
}.

(** ** A reference implementation of the [json] interface: compact JSON

    Values are written without white space.  A float that is not zero,
    infinite or not-a-number is written by its mantissa and binary exponent
    around a [p], which keeps it exact. *)

Module Compact.

Abbreviation text := (list ascii).

Definition chars (s : string) : text := list_ascii_of_string s.

Definition dquote : ascii := ascii_of_nat 34.
Definition backslash : ascii := ascii_of_nat 92.

(** A character that stands for itself inside a string literal. *)
Definition plain (c : ascii) : bool :=
  let n := N_of_ascii c in
  ((32 <=? n) && (n <? 127) && negb (n =? 34) && negb (n =? 92))%N.

Definition hex_digit (n : N) : ascii :=
  if (n <? 10)%N then ascii_of_N (48 + n) else ascii_of_N (87 + n).

Definition hex_value (c : ascii) : option N :=
  let n := N_of_ascii c in
  if ((48 <=? n) && (n <=? 57))%N then Some (n - 48)%N
  else if ((97 <=? n) && (n <=? 102))%N then Some (n - 87)%N
  else None.

(** Any other character is written as a [\u00XX] escape. *)
Definition escape_char (c : ascii) : text :=
  if plain c then [c]
  else
    let n := N_of_ascii c in
    backslash :: chars "u00" ++ [hex_digit (n / 16); hex_digit (n mod 16)].

Definition write_string (s : string) : text :=
  dquote :: flat_map escape_char (chars s) ++ [dquote].

(** The characters of a string literal after its opening quote, up to the
    closing quote, and what follows it. *)
Fixpoint read_string (s : text) : option (text * text) :=
  match s with
  | [] => None
  | c :: r =>
      if Ascii.eqb c dquote then Some ([], r)
      else if Ascii.eqb c backslash then
        match r with
        | "u"%char :: "0"%char :: "0"%char :: h :: l :: r' =>
            match hex_value h, hex_value l, read_string r' with
            | Some hi, Some lo, Some (t, rest) => Some (ascii_of_N (16 * hi + lo) :: t, rest)
            | _, _, _ => None
            end
        | _ => None
        end
      else if plain c then
        match read_string r with
        | Some (t, rest) => Some (c :: t, rest)
        | None => None
        end
      else None
  end.

Definition is_num (c : ascii) : bool :=
  let n := N_of_ascii c in
  ((n =? 45) || ((48 <=? n) && (n <=? 57)))%N.

Definition write_int (n : Z) : text :=
  chars (NilEmpty.string_of_int (Z.to_int n)).

Definition write_float (f : float) : text :=
  match f with
  | FNaN => chars "NaN"
  | FInf false => chars "Infinity"
  | FInf true => chars "-Infinity"
  | FZero false => chars "0.0"
  | FZero true => chars "-0.0"
  | FFinite s m e => write_int (signed s m) ++ "p"%char :: write_int e
  end.

(** A character of a number: a sign or a digit, a letter of [NaN] or
    [Infinity], the point of [0.0], the mark of the exponent. *)
Definition is_numeric (c : ascii) : bool :=
  is_num c || existsb (Ascii.eqb c) (chars "NaInfity.p").

(** The longest prefix of such characters, and the rest. *)
Fixpoint span_numeric (s : text) : text * text :=
  match s with
  | [] => ([], [])
  | c :: r =>
      if is_numeric c then let (a, b) := span_numeric r in (c :: a, b)
      else ([], s)
  end.

Definition special (tok : string) : option float :=
  if String.eqb tok "NaN" then Some FNaN
  else if String.eqb tok "Infinity" then Some (FInf false)
  else if String.eqb tok "-Infinity" then Some (FInf true)
  else if String.eqb tok "0.0" then Some (FZero false)
  else if String.eqb tok "-0.0" then Some (FZero true)
  else None.

(** What stands before and after the first exponent mark. *)
Fixpoint split_mark (t : text) : option (text * text) :=
  match t with
  | [] => None
  | c :: r =>
      if Ascii.eqb c "p" then Some ([], r)
      else match split_mark r with
           | Some (a, b) => Some (c :: a, b)
           | None => None
           end
  end.

Definition int_of_text (t : text) : option Z :=
  match NilEmpty.int_of_string (string_of_list_ascii t) with
  | Some i => Some (Z.of_int i)
  | None => None
  end.

Definition number_of_text (t : text) : option json :=
  match special (string_of_list_ascii t) with
  | Some f => Some (JFloat f)
  | None =>
      match split_mark t with
      | Some (a, b) =>
          match int_of_text a, int_of_text b with
          | Some (Z.pos m), Some e => Some (JFloat (FFinite false m e))
          | Some (Z.neg m), Some e => Some (JFloat (FFinite true m e))
          | _, _ => None
          end
      | None =>
          match int_of_text t with
          | Some n => Some (JInt n)
          | None => None
          end
      end
  end.

Definition read_number (s : text) : option (json * text) :=
  let (tok, rest) := span_numeric s in
  match number_of_text tok with
  | Some v => Some (v, rest)
  | None => None
  end.

(** The parts of a list or an object, separated by commas, then the
    closing bracket. *)
Fixpoint join (parts : list text) (close : ascii) : text :=
  match parts with
  | [] => [close]
  | [p] => p ++ [close]
  | p :: ps => p ++ ","%char :: join ps close
  end.

Fixpoint write (v : json) : text :=
  match v with
  | JNull => chars "null"
  | JBool true => chars "true"
  | JBool false => chars "false"
  | JInt n => write_int n
  | JFloat f => write_float f
  | JStr s => write_string s
  | JArr l => "["%char :: join (map write l) "]"%char
  | JObj d =>
      "{"%char :: join (map (fun kv => write_string (fst kv) ++ ":"%char :: write (snd kv)) d)
                       "}"%char
  end.

Fixpoint read (fuel : nat) (s : text) {struct fuel} : option (json * text) :=
  match fuel with
  | O => None
  | S f =>
      match s with
      | [] => None
      | c :: r =>
          if Ascii.eqb c "n" then
            match r with
            | "u"%char :: "l"%char :: "l"%char :: r' => Some (JNull, r')
            | _ => None
            end
          else if Ascii.eqb c "t" then
            match r with
            | "r"%char :: "u"%char :: "e"%char :: r' => Some (JBool true, r')
            | _ => None
            end
          else if Ascii.eqb c "f" then
            match r with
            | "a"%char :: "l"%char :: "s"%char :: "e"%char :: r' => Some (JBool false, r')
            | _ => None
            end
          else if Ascii.eqb c dquote then
            match read_string r with
            | Some (t, r') => Some (JStr (string_of_list_ascii t), r')
            | None => None
            end
          else if Ascii.eqb c "[" then
            match r with
            | "]"%char :: r' => Some (JArr [], r')
            | _ => match read_items f r with
                   | Some (l, r') => Some (JArr l, r')
                   | None => None
                   end
            end
          else if Ascii.eqb c "{" then
            match r with
            | "}"%char :: r' => Some (JObj [], r')
            | _ => match read_members f r with
                   | Some (d, r') => Some (JObj d, r')
                   | None => None
                   end
            end
          else if is_numeric c then read_number s
          else None
      end
  end
with read_items (fuel : nat) (s : text) {struct fuel} : option (list json * text) :=
  match fuel with
  | O => None
  | S f =>
      match read f s with
      | Some (v, ","%char :: r) =>
          match read_items f r with
          | Some (l, r') => Some (v :: l, r')
          | None => None
          end
      | Some (v, "]"%char :: r) => Some ([v], r)
      | _ => None
      end
  end
with read_members (fuel : nat) (s : text) {struct fuel} : option (dict * text) :=
  match fuel with
  | O => None
  | S f =>
      match s with
      | q :: r =>
          if Ascii.eqb q dquote then
            match read_string r with
            | Some (k, ":"%char :: r1) =>
                match read f r1 with
                | Some (v, ","%char :: r2) =>
                    match read_members f r2 with
                    | Some (d, r') => Some ((string_of_list_ascii k, v) :: d, r')
                    | None => None
                    end
                | Some (v, "}"%char :: r2) => Some ([(string_of_list_ascii k, v)], r2)
                | _ => None
                end
            | _ => None
            end
          else None
      | [] => None
      end
  end.

Definition dumps (v : json) : string := string_of_list_ascii (write v).

Definition loads (s : string) : option json :=
  match read (S (String.length s)) (chars s) with
  | Some (v, []) => Some v
  | _ => None
  end.

End Compact.

(** ** The world the handlers run in *)

(** The two storage artifacts under [DATA_DIR]: [conversations.json] and
    the files of the directory [conversations/]. *)
Record storage : Type := {
  index_file : option bytes;
  conv_dir : gmap string bytes
}.

Inductive path : Type :=
| INDEX_PATH
| CONV_DIR (name : string).

(** A request to the inference daemon and what [httpx] shows of its
    response: the status, the raw body, the decoder of the charset that the
    response names with [errors="replace"] ([None] when it names none, and
    the body is taken for UTF-8), and the lines [aiter_lines] yields, which
    are text that [httpx] decoded. *)
Record request : Type := {
  req_method : string;
  req_url : string;
  req_json : option json
}.

Record response : Type := {
  status_code : Z;
  content : bytes;
  charset : option (bytes -> string);
  lines : list string
}.

(** [response.text]: the body decoded, with a replacement character for
    what does not decode. *)
Definition text (r : response) : string :=
  match charset r with
  | Some decoder => decoder (content r)
  | None => decode_replace (content r)
  end.

(** The world: the storage, the process environment, the daemon, the
    clock and the uuid generator, and what the file system answers to a
    write at a path that leaves the two artifacts ([elsewhere]; a path that
    the model does not follow may lead back to them, so the answer comes
    with a storage). *)
Record world : Type := {
  fs : storage;
  elsewhere : storage -> string -> bytes -> result unit * storage;
  environ : gmap string string;
  daemon : request -> response;
  clock : nat -> string;
  clock_reads : nat;
  uuid_hex : nat -> string;
  uuid_draws : nat
}.

Definition with_fs (w : world) (s : storage) : world :=
  {| fs := s; elsewhere := elsewhere w; environ := environ w; daemon := daemon w;
     clock := clock w; clock_reads := clock_reads w;
     uuid_hex := uuid_hex w; uuid_draws := uuid_draws w |}.

(** A computation reads and writes the world and returns or raises; what
    was written before an exception stays written. *)
Definition M (A : Type) : Type := world -> result A * world.

Definition ret {A} (a : A) : M A := fun w => (Ok a, w).
Definition raise {A} (e : exn) : M A := fun w => (Raise e, w).
Definition bind {A B} (m : M A) (k : A -> M B) : M B :=
  fun w => match m w with
           | (Ok a, w') => k a w'
           | (Raise e, w') => (Raise e, w')
           end.
Definition lift {A} (r : result A) : M A := fun w => (r, w).

Declare Scope py_scope.
Delimit Scope py_scope with py.
Notation "'let*' x ':=' m 'in' k" := (bind m (fun x => k))
  (at level 10, x name, m at level 100, k at level 200) : py_scope.
Notation "m ';;' k" := (bind m (fun _ => k))
  (at level 100, k at level 200, right associativity) : py_scope.
Local Open Scope py_scope.

(** ** Files *)

Definition lookup_file (p : path) (s : storage) : option bytes :=
  match p with
  | INDEX_PATH => index_file s
  | CONV_DIR name => conv_dir s !! name
  end.

Definition store_file (p : path) (b : bytes) (s : storage) : storage :=
  match p with
  | INDEX_PATH => {| index_file := Some b; conv_dir := conv_dir s |}
  | CONV_DIR name => {| index_file := index_file s; conv_dir := <[name := b]> (conv_dir s) |}
  end.

Definition remove_file (p : path) (s : storage) : storage :=
  match p with
  | INDEX_PATH => {| index_file := None; conv_dir := conv_dir s |}
  | CONV_DIR name => {| index_file := index_file s; conv_dir := delete name (conv_dir s) |}
  end.

(** [p.exists()] *)
Definition exists_ (p : path) : M bool :=
  fun w => (Ok (bool_decide (is_Some (lookup_file p (fs w)))), w).

(** [p.read_text(encoding="utf-8")] *)
Definition read_text (p : path) : M string :=
  fun w => match lookup_file p (fs w) with
           | None => (Raise FileNotFoundError, w)
           | Some b => match decode_strict b with
                       | Some s => (Ok s, w)
                       | None => (Raise UnicodeDecodeError, w)
                       end
           end.

(** *** Where a path leads

    [exists], [read_text] and [unlink] are reached with [INDEX_PATH] and
    with the path of a route parameter, which is one segment of the URL
    path and holds no separator: such a path names a file of the directory,
    and [lookup_file] and [remove_file] take it so.  [write_text] is also
    reached with a path built from the id of a payload, which is any text:
    the separators in it are followed, as the operating system does, through
    the directory of documents and its parent [DATA_DIR], and no further. *)

Definition slash : ascii := ascii_of_nat 47.
Definition nul : ascii := ascii_of_nat 0.

(** The segments of a path text, between its separators. *)
Fixpoint segments (s : string) : list string :=
  match s with
  | EmptyString => [""]
  | String c r =>
      if Ascii.eqb c slash then "" :: segments r
      else match segments r with
           | seg :: rest => String c seg :: rest
           | [] => [String c ""]
           end
  end.

(** A name that a directory can hold: not empty, not [.] or [..], without
    separator or NUL, of at most 255 bytes, and text that encodes. *)
Definition file_name (name : string) : bool :=
  negb (String.eqb name "") && negb (String.eqb name ".") && negb (String.eqb name "..")
  && forallb (fun c => negb (Ascii.eqb c slash) && negb (Ascii.eqb c nul))
             (list_ascii_of_string name)
  && (String.length name <=? 255)%nat
  && encodes name.

(** A segment that the walk knows how to take. *)
Definition walkable (seg : string) : bool :=
  String.eqb seg "" || String.eqb seg "." || String.eqb seg ".." || file_name seg.

Inductive place : Type := IN_CONV_DIR | IN_DATA_DIR.

(** Where [CONV_DIR / name] leads: to a file of the directory of documents,
    to the index, to an error of the walk ([ENOENT] through a directory
    that is not there, [ENOTDIR] through a file), or out of the two
    artifacts. *)
Inductive target : Type :=
| Document (name : string)
| Index
| Missing
| NotADirectory
| Elsewhere.

(** The walk from a directory along the segments, the last of which names
    the file.  The directory of documents holds files only (nothing makes a
    directory in it), so a name in it leads nowhere; [DATA_DIR] holds the
    directory of documents and the index, and what else it holds is not
    known. *)
Fixpoint walk (s : storage) (here : place) (segs : list string) : target :=
  match segs with
  | [] => Elsewhere
  | [last] =>
      if file_name last then
        match here with
        | IN_CONV_DIR => Document last
        | IN_DATA_DIR => if String.eqb last "conversations.json" then Index else Elsewhere
        end
      else Elsewhere
  | seg :: rest =>
      if String.eqb seg "" || String.eqb seg "." then walk s here rest
      else if String.eqb seg ".." then
        match here with
        | IN_CONV_DIR => walk s IN_DATA_DIR rest
        | IN_DATA_DIR => Elsewhere
        end
      else
        match here with
        | IN_CONV_DIR =>
            match conv_dir s !! seg with
            | Some _ => NotADirectory
            | None => Missing
            end
        | IN_DATA_DIR =>
            if String.eqb seg "conversations" then walk s IN_CONV_DIR rest
            else if String.eqb seg "conversations.json" then
              match index_file s with
              | Some _ => NotADirectory
              | None => Missing
              end
            else Elsewhere
        end
  end.

(** [CONV_DIR / name], resolved.  A text that starts with a separator is an
    absolute path, which replaces [CONV_DIR]; an overlong text, or one with
    a segment that is no file name, is not followed. *)
Definition resolve (s : storage) (name : string) : target :=
  let segs := segments name in
  if (String.length name <=? 255)%nat && forallb walkable segs
     && negb (match name with String c _ => Ascii.eqb c slash | EmptyString => true end)
  then walk s IN_CONV_DIR segs
  else Elsewhere.

(** [p.write_text(s, encoding="utf-8")] *)
Definition write_text (p : path) (s : string) : M unit :=
  fun w =>
    match p with
    | INDEX_PATH => (Ok tt, with_fs w (store_file INDEX_PATH (encode s) (fs w)))
    | CONV_DIR name =>
        match resolve (fs w) name with
        | Document file => (Ok tt, with_fs w (store_file (CONV_DIR file) (encode s) (fs w)))
        | Index => (Ok tt, with_fs w (store_file INDEX_PATH (encode s) (fs w)))
        | Missing => (Raise FileNotFoundError, w)
        | NotADirectory => (Raise NotADirectoryError, w)
        | Elsewhere =>
            let (r, s') := elsewhere w (fs w) name (encode s) in (r, with_fs w s')
        end
    end.

(** [p.unlink(missing_ok=True)] *)
Definition unlink (p : path) : M unit :=
  fun w => (Ok tt, with_fs w (remove_file p (fs w))).

(** [try: m except e: handler], for one exception class. *)
Definition try_except {A} (m : M A) (catches : exn -> bool) (handler : M A) : M A :=
  fun w => match m w with
           | (Ok a, w') => (Ok a, w')
           | (Raise e, w') => if catches e then handler w' else (Raise e, w')
           end.

Definition is_JSONDecodeError (e : exn) : bool :=
  match e with JSONDecodeError => true | _ => false end.

(** ** Python operations on values that came out of [json.loads] *)

(** [v.get(k, default)]: only a dict has [get]. *)
Definition py_get (v : json) (k : string) (default : json) : result json :=
  match v with
  | JObj d => Ok (match dict_get k d with Some x => x | None => default end)
  | _ => Raise AttributeError
  end.

(** [v[k]] with a string key. *)
Definition py_getitem (v : json) (k : string) : result json :=
  match v with
  | JObj d => match dict_get k d with Some x => Ok x | None => Raise (KeyError k) end
  | _ => Raise TypeError
  end.

(** [v[k] = x] with a string key. *)
Definition py_setitem (v : json) (k : string) (x : json) : result json :=
  match v with
  | JObj d => Ok (JObj (dict_set k x d))
  | _ => Raise TypeError
  end.

(** [for item in v]: a list yields its items, a dict its keys, a string its
    characters (here one per byte; all that is done with them below is
    [item["id"]], a [TypeError] on every string); nothing else iterates. *)
Definition py_iter (v : json) : result (list json) :=
  match v with
  | JArr l => Ok l
  | JObj d => Ok (map (fun kv => JStr (fst kv)) d)
  | JStr s => Ok (map (fun c => JStr (String c EmptyString)) (list_ascii_of_string s))
  | _ => Raise TypeError
  end.

(** [v.append(x)]: only a list has [append]. *)
Definition py_append (v : json) (x : json) : result json :=
  match v with
  | JArr l => Ok (JArr (l ++ [x]))
  | _ => Raise AttributeError
  end.

(** [str(v)] for a value that is not a [str] (what an f-string makes of it)
    is Python's business and stays a parameter. *)
Class PyStr := py_str_other : json -> string.

Definition py_format `{PyStr} (v : json) : string :=
  match v with
  | JStr s => s
  | _ => py_str_other v
  end.

(** [a or b], where [b] is only run when [a] is false. *)
Definition py_or (a : json) (b : M json) : M json :=
  if truthy a then ret a else b.

(** [json.loads(s)] *)
Definition loads `{JsonCodec} (s : string) : M json :=
  lift (match json_loads s with
        | None => Raise JSONDecodeError
        | Some v => match json_refuses s with
                    | Some e => Raise e
                    | None => Ok v
                    end
        end).

(** ** What [JSONResponse] makes of its content

    [JSONResponse(content)] renders its body when it is built, as
    [json.dumps(content, ensure_ascii=False, allow_nan=False, ...)] encoded
    to UTF-8.  The dump raises [ValueError] on a float that is infinite or
    not-a-number; the encoding raises [UnicodeEncodeError] on a string or a
    key with a lone surrogate. *)

Fixpoint finite_floats (v : json) : bool :=
  match v with
  | JFloat (FInf _) => false
  | JFloat FNaN => false
  | JArr l => forallb finite_floats l
  | JObj d => forallb (fun kv => finite_floats (snd kv)) d
  | _ => true
  end.

Fixpoint strings_encode (v : json) : bool :=
  match v with
  | JStr s => encodes s
  | JArr l => forallb strings_encode l
  | JObj d => forallb (fun kv => encodes (fst kv) && strings_encode (snd kv)) d
  | _ => true
  end.

Definition render_error (v : json) : option exn :=
  if negb (finite_floats v) then Some ValueError
  else if negb (strings_encode v) then Some UnicodeEncodeError
  else None.

(** ** The program *)

Section Program.
Context {codec : JsonCodec} {pystr : PyStr}.

(** What a handler hands back to the framework.  The body of a
    [StreamingResponse] is the run of the generator it wraps: the chunks
    it yields and the exception that ends it, if one does. *)
Record stream : Type := {
  chunks : list bytes;
  failure : option exn
}.

Inductive http_response : Type :=
| JSONResponse (body : json)
| StreamingResponse (body : stream) (media_type : string)
| FileResponse (file : string).

(** [JSONResponse(content)], the call: the response, or what the
    rendering of its body raises. *)
Definition json_response (content : json) : M http_response :=
  match render_error content with
  | Some e => raise e
  | None => ret (JSONResponse content)
  end.

Definition OLLAMA_BASE_URL (w : world) : string :=
  default "http://localhost:11434" (environ w !! "OLLAMA_BASE_URL").

Definition OLLAMA_API_BASE (w : world) : string :=
  OLLAMA_BASE_URL w +:+ "/api".

Definition _ensure_data_dirs : M unit :=
  let* present := exists_ INDEX_PATH in
  if negb present then write_text INDEX_PATH "[]" else ret tt.

Definition index : M http_response :=
  ret (FileResponse "index.html").

(** [client.get(url)] and [client.post(url, json=payload)] *)
Definition client_get (url : string) : M response :=
  fun w => (Ok (daemon w {| req_method := "GET"; req_url := url; req_json := None |}), w).

Definition client_post (url : string) (payload : json) : M response :=
  fun w => (Ok (daemon w {| req_method := "POST"; req_url := url; req_json := Some payload |}), w).

(** [response.json()]: [json.loads] on the bytes of the body. *)
Definition response_json (r : response) : M json :=
  lift (json_loads_bytes (content r)).

Definition _ollama_get (path : string) : M json :=
  fun w =>
    (let url := OLLAMA_API_BASE w +:+ path in
     let* r := client_get url in
     if (status_code r >=? 400)%Z
     then raise (HTTPException (status_code r) (text r))
     else response_json r) w.

Definition _ollama_post_json (path : string) (payload : json) : M json :=
  fun w =>
    (let url := OLLAMA_API_BASE w +:+ path in
     let* r := client_post url payload in
     if (status_code r >=? 400)%Z
     then raise (HTTPException (status_code r) (text r))
     else response_json r) w.

Definition newline : string := String (ascii_of_nat 10) EmptyString.

(** The body of the [async for]: a line that is empty ([not line]) is
    skipped, any other is yielded with a newline, encoded. *)
Fixpoint relay (ls : list string) : list bytes :=
  match ls with
  | [] => []
  | line :: rest =>
      if String.eqb line "" then relay rest
      else encode (line +:+ newline) :: relay rest
  end.

Definition _ollama_stream (path : string) (payload : json) (w : world) : stream :=
  let url := OLLAMA_API_BASE w +:+ path in
  let r := daemon w {| req_method := "POST"; req_url := url; req_json := Some payload |} in
  if (status_code r >=? 400)%Z then
    let detail := content r in
    {| chunks := []; failure := Some (HTTPException (status_code r) (decode_ignore detail)) |}
  else
    {| chunks := relay (lines r); failure := None |}.

Definition _load_index : M json :=
  try_except
    (let* s := read_text INDEX_PATH in loads s)
    is_JSONDecodeError
    (ret (JArr [])).

Definition _save_index (items : json) : M unit :=
  write_text INDEX_PATH (json_dumps items).

Definition _now_iso : M string :=
  fun w => (Ok (clock w (clock_reads w)),
            {| fs := fs w; elsewhere := elsewhere w; environ := environ w; daemon := daemon w;
               clock := clock w; clock_reads := S (clock_reads w);
               uuid_hex := uuid_hex w; uuid_draws := uuid_draws w |}).

(** [uuid4().hex] *)
Definition uuid4_hex : M string :=
  fun w => (Ok (uuid_hex w (uuid_draws w)),
            {| fs := fs w; elsewhere := elsewhere w; environ := environ w; daemon := daemon w;
               clock := clock w; clock_reads := clock_reads w;
               uuid_hex := uuid_hex w; uuid_draws := S (uuid_draws w) |}).

(** [CONV_DIR / f"{conv_id}.json"]: the path as it is written.  Nothing
    is followed yet; that is for the operation that takes the path. *)
Definition _conversation_path (conv_id : json) : path :=
  CONV_DIR (py_format conv_id +:+ ".json").

Definition _load_conversation (conv_id : json) : M (option json) :=
  let p := _conversation_path conv_id in
  let* present := exists_ p in
  if negb present then ret None
  else let* s := read_text p in
       let* v := loads s in
       ret (Some v).

Definition _save_conversation (data : json) : M unit :=
  let* conv_id := lift (py_getitem data "id") in
  write_text (_conversation_path conv_id) (json_dumps data).

(** The [for] loop of [_upsert_index_entry] over the items of the index:
    [Ok (Some items')] when an entry matched and was updated in place (the
    function then saves and returns), [Ok None] when the loop ran to its
    end. *)
Fixpoint upsert_loop (conv_id title updated_at : json) (items : list json)
  : result (option (list json)) :=
  match items with
  | [] => Ok None
  | item :: rest =>
      match py_getitem item "id" with
      | Raise e => Raise e
      | Ok id =>
          if py_eq id conv_id then
            match py_setitem item "title" title with
            | Raise e => Raise e
            | Ok item1 =>
                match py_setitem item1 "updated_at" updated_at with
                | Raise e => Raise e
                | Ok item2 => Ok (Some (item2 :: rest))
                end
            end
          else
            match upsert_loop conv_id title updated_at rest with
            | Ok (Some rest') => Ok (Some (item :: rest'))
            | Ok None => Ok None
            | Raise e => Raise e
            end
      end
  end.

(** The index with its items mutated in place: only a list holds items
    that can be mutated, and [items] is that same list. *)
Definition with_items (items : json) (l : list json) : json :=
  match items with
  | JArr _ => JArr l
  | _ => items
  end.

Definition _upsert_index_entry (conv_id title updated_at created_at : json) : M unit :=
  let* items := _load_index in
  let* l := lift (py_iter items) in
  let* found := lift (upsert_loop conv_id title updated_at l) in
  match found with
  | Some l' => _save_index (with_items items l')
  | None =>
      let* items' := lift (py_append items
                             (JObj [("id", conv_id); ("title", title);
                                    ("created_at", created_at);
                                    ("updated_at", updated_at)])) in
      _save_index items'
  end.

(** ** The routes *)

Definition list_models : M http_response :=
  let* data := _ollama_get "/tags" in
  json_response data.

Definition list_running : M http_response :=
  let* data := _ollama_get "/ps" in
  json_response data.

(** [StreamingResponse(_ollama_stream(path, payload), media_type=...)] *)
Definition streaming (path : string) (payload : json) : M http_response :=
  fun w => (Ok (StreamingResponse (_ollama_stream path payload w) "application/x-ndjson"), w).

Definition pull_model (payload : json) : M http_response :=
  let* stream := lift (py_get payload "stream" (JBool true)) in
  if negb (truthy stream) then
    let* data := _ollama_post_json "/pull" payload in
    json_response data
  else streaming "/pull" payload.

Definition chat (payload : json) : M http_response :=
  let* stream := lift (py_get payload "stream" (JBool true)) in
  if negb (truthy stream) then
    let* data := _ollama_post_json "/chat" payload in
    json_response data
  else streaming "/chat" payload.

Definition generate (payload : json) : M http_response :=
  let* stream := lift (py_get payload "stream" (JBool true)) in
  if negb (truthy stream) then
    let* data := _ollama_post_json "/generate" payload in
    json_response data
  else streaming "/generate" payload.

Definition list_conversations : M http_response :=
  let* items := _load_index in
  json_response items.

(** [not data] for the [Optional] that [_load_conversation] returns. *)
Definition not_data (data : option json) : bool :=
  match data with
  | None => true
  | Some v => negb (truthy v)
  end.

Definition get_conversation (conv_id : string) : M http_response :=
  let* data := _load_conversation (JStr conv_id) in
  match data with
  | Some v => if truthy v then json_response v
              else raise (HTTPException 404 "conversation not found")
  | None => raise (HTTPException 404 "conversation not found")
  end.

Definition save_conversation (payload : json) : M http_response :=
  let* id0 := lift (py_get payload "id" JNull) in
  let* conv_id := py_or id0 (let* u := uuid4_hex in ret (JStr u)) in
  let* title0 := lift (py_get payload "title" JNull) in
  let* title := py_or title0 (ret (JStr "Untitled")) in
  let* created0 := lift (py_get payload "created_at" JNull) in
  let* created_at := py_or created0 (let* t := _now_iso in ret (JStr t)) in
  let* now := _now_iso in
  let updated_at := JStr now in
  let* system := lift (py_get payload "system" (JStr "")) in
  let* settings := lift (py_get payload "settings" (JObj [])) in
  let* messages := lift (py_get payload "messages" (JArr [])) in
  let data := JObj [("id", conv_id); ("title", title);
                    ("created_at", created_at); ("updated_at", updated_at);
                    ("system", system); ("settings", settings);
                    ("messages", messages)] in
  _save_conversation data ;;
  _upsert_index_entry conv_id title updated_at created_at ;;
  json_response data.

(** [[item for item in items if item["id"] != conv_id]] *)
Fixpoint without_id (conv_id : json) (items : list json) : result (list json) :=
  match items with
  | [] => Ok []
  | item :: rest =>
      match py_getitem item "id" with
      | Raise e => Raise e
      | Ok id =>
          match without_id conv_id rest with
          | Raise e => Raise e
          | Ok rest' => Ok (if negb (py_eq id conv_id) then item :: rest' else rest')
          end
      end
  end.

Definition delete_conversation (conv_id : string) : M http_response :=
  let* data := _load_conversation (JStr conv_id) in
  if not_data data then raise (HTTPException 404 "conversation not found")
  else
    unlink (_conversation_path (JStr conv_id)) ;;
    let* index := _load_index in
    let* l := lift (py_iter index) in
    let* items := lift (without_id (JStr conv_id) l) in
    _save_index (JArr items) ;;
    json_response (JObj [("ok", JBool true)]).
End Program.


(** ** The vocabulary of the properties *)

Section Vocabulary.
Context {codec : JsonCodec} {pystr : PyStr}.

(** An index entry: a dict with an ["id"]. *)
Definition is_entry (item : json) : bool :=
  match item with
  | JObj d => match dict_get "id" d with Some _ => true | None => false end
  | _ => false
  end.

(** [item["id"]] and [item.get(k)] of an entry. *)
Definition entry_id (item : json) : json :=
  match item with
  | JObj d => default JNull (dict_get "id" d)
  | _ => JNull
  end.

Definition entry_field (k : string) (item : json) : option json :=
  match item with
  | JObj d => dict_get k d
  | _ => None
  end.

(** [item] after [item["title"] = title; item["updated_at"] = updated_at]. *)
Definition retitled (title updated_at : json) (item : json) : json :=
  match item with
  | JObj d => JObj (dict_set "updated_at" updated_at (dict_set "title" title d))
  | _ => item
  end.

(** The entry [_upsert_index_entry] appends for a new id. *)
Definition new_entry (conv_id title updated_at created_at : json) : json :=
  JObj [("id", conv_id); ("title", title); ("created_at", created_at);
        ("updated_at", updated_at)].

(** Whether an entry of the index carries the id, in the sense of [==]. *)
Definition carries (conv_id : json) (item : json) : bool :=
  py_eq (entry_id item) conv_id.

(** The world after [p.write_text(json.dumps(v))], for the index and for
    a file of the directory. *)
Definition written (p : path) (v : json) (w : world) : world :=
  with_fs w (store_file p (encode (json_dumps v)) (fs w)).

(** The name of the document artifact of a document: [f"{conv_id}.json"]. *)
Definition document_name (data : json) : string :=
  py_format (entry_id data) +:+ ".json".

(** What [JSONResponse(content)] returns or raises. *)
Definition rendered (content : json) : result http_response :=
  match render_error content with
  | Some e => Raise e
  | None => Ok (JSONResponse content)
  end.

(** What [_load_index] makes of the index artifact. *)
Definition index_reads (w : world) (items : list json) : Prop :=
  _load_index w = (Ok (JArr items), w).

(** What [_load_conversation] makes of a document artifact. *)
Definition document_reads (w : world) (conv_id : string) (data : json) : Prop :=
  _load_conversation (JStr conv_id) w = (Ok (Some data), w).

(** The two runs of [_upsert_index_entry] on an index of entries: the id is
    new and an entry is appended, or the first entry that carries it is
    updated where it stands. *)
Definition upserts (conv_id title updated_at created_at : json)
    (items items' : list json) : Prop :=
  (existsb (carries conv_id) items = false /\
   items' = items ++ [new_entry conv_id title updated_at created_at])
  \/
  (exists pre item post,
     items = pre ++ item :: post /\
     existsb (carries conv_id) pre = false /\
     carries conv_id item = true /\
     items' = pre ++ retitled title updated_at item :: post).

(** The request a streamed or buffered POST sends. *)
Definition post_request (w : world) (path : string) (payload : json) : request :=
  {| req_method := "POST"; req_url := OLLAMA_API_BASE w +:+ path; req_json := Some payload |}.

Definition get_request (w : world) (path : string) : request :=
  {| req_method := "GET"; req_url := OLLAMA_API_BASE w +:+ path; req_json := None |}.

(** The chunks the specification asks for: the non-empty lines, in their
    order, each followed by one newline. *)
Definition framed (ls : list string) : list bytes :=
  map (fun line => encode (line +:+ newline))
      (List.filter (fun line => negb (String.eqb line "")) ls).

(** The three POST routes with a [stream] flag. *)
Inductive endpoint : Type := Pull | Chat | Generate.

Definition handler (e : endpoint) : json -> M http_response :=
  match e with
  | Pull => pull_model
  | Chat => chat
  | Generate => generate
  end.

Definition upstream_path (e : endpoint) : string :=
  match e with
  | Pull => "/pull"
  | Chat => "/chat"
  | Generate => "/generate"
  end.

(** The handler's answer in buffered mode: what [_ollama_post_json]
    returned, as a [JSONResponse], or what it raised. *)
Definition buffered (path : string) (payload : json) : M http_response :=
  let* data := _ollama_post_json path payload in
  json_response data.

(** The two loaders read the storage and nothing else. *)
Definition index_in (s : storage) : result json :=
  match index_file s with
  | None => Raise FileNotFoundError
  | Some b =>
      match decode_strict b with
      | None => Raise UnicodeDecodeError
      | Some t => match json_loads t with
                  | None => Ok (JArr [])
                  | Some v => match json_refuses t with
                              | Some e => if is_JSONDecodeError e then Ok (JArr []) else Raise e
                              | None => Ok v
                              end
                  end
      end
  end.

Definition document_in (s : storage) (conv_id : json) : result (option json) :=
  match lookup_file (_conversation_path conv_id) s with
  | None => Ok None
  | Some b =>
      match decode_strict b with
      | None => Raise UnicodeDecodeError
      | Some t => match json_loads t with
                  | None => Raise JSONDecodeError
                  | Some v => match json_refuses t with
                              | Some e => Raise e
                              | None => Ok (Some v)
                              end
                  end
      end
  end.

(** [payload.get(k) or alt] on the members of the payload. *)
Definition or_else (o : option json) (alt : json) : json :=
  match o with
  | Some v => if truthy v then v else alt
  | None => alt
  end.

(** Whether [payload.get(k)] is false, so that the alternative is run. *)
Definition falls_back (o : option json) : bool :=
  match o with
  | Some v => negb (truthy v)
  | None => true
  end.

(** The world after [reads] readings of the clock and [draws] draws of
    the uuid generator. *)
Definition advance (reads draws : nat) (w : world) : world :=
  {| fs := fs w; elsewhere := elsewhere w; environ := environ w; daemon := daemon w;
     clock := clock w; clock_reads := reads + clock_reads w;
     uuid_hex := uuid_hex w; uuid_draws := draws + uuid_draws w |}.

Definition count (b : bool) : nat := if b then 1 else 0.

(** The document [save_conversation] assembles from a payload in a world. *)
Definition document_of (payload : dict) (w : world) : json :=
  let minted := JStr (uuid_hex w (uuid_draws w)) in
  let first_reading := JStr (clock w (clock_reads w)) in
  let late := count (falls_back (dict_get "created_at" payload)) in
  JObj [("id", or_else (dict_get "id" payload) minted);
        ("title", or_else (dict_get "title" payload) (JStr "Untitled"));
        ("created_at", or_else (dict_get "created_at" payload) first_reading);
        ("updated_at", JStr (clock w (late + clock_reads w)));
        ("system", default (JStr "") (dict_get "system" payload));
        ("settings", default (JObj []) (dict_get "settings" payload));
        ("messages", default (JArr []) (dict_get "messages" payload))].

(** The world in which [save_conversation] writes: the clock was read once
    or twice, the uuid generator drawn from if the id was to be minted. *)
Definition at_write (payload : dict) (w : world) : world :=
  advance (S (count (falls_back (dict_get "created_at" payload))))
          (count (falls_back (dict_get "id" payload))) w.

(** [save_conversation] after the document is assembled: the document is
    written, the index upserted, the document returned. *)
Definition save_tail (data : json) : M http_response :=
  _save_conversation data ;;
  _upsert_index_entry (entry_id data)
    (default JNull (entry_field "title" data))
    (default JNull (entry_field "updated_at" data))
    (default JNull (entry_field "created_at" data)) ;;
  json_response data.

(** What an upsert of [conv_id] into [items] leaves as [items']: a new id
    adds one entry, at the end; an id that is there keeps the length, and
    the index differs only at the first entry that carries the id, and that
    entry only in its title and updated_at. *)
Definition upsert_outcome (conv_id title updated_at created_at : json)
    (items items' : list json) : Prop :=
  (existsb (carries conv_id) items = false ->
     items' = items ++ [new_entry conv_id title updated_at created_at]
     /\ length items' = S (length items)
     /\ entry_id (new_entry conv_id title updated_at created_at) = conv_id)
  /\ (existsb (carries conv_id) items = true ->
     length items' = length items
     /\ exists pre item item' post,
          items = pre ++ item :: post
          /\ items' = pre ++ item' :: post
          /\ existsb (carries conv_id) pre = false
          /\ carries conv_id item = true
          /\ entry_field "title" item' = Some title
          /\ entry_field "updated_at" item' = Some updated_at
          /\ forall k, k <> "title" -> k <> "updated_at" ->
               entry_field k item' = entry_field k item).

(** The index without the entries that carry an id. *)
Definition others (conv_id : string) (items : list json) : list json :=
  List.filter (fun item => negb (carries (JStr conv_id) item)) items.

(** The world after a delete that found its document. *)
Definition deleted (conv_id : string) (items : list json) (w : world) : world :=
  written INDEX_PATH (JArr (others conv_id items))
    (with_fs w (remove_file (_conversation_path (JStr conv_id)) (fs w))).

(** The state of a store that only this program wrote: the index reads as
    a list of entries, and every document artifact reads as a document. *)
Definition store_ok (w : world) : Prop :=
  (exists items, index_reads w items /\ forallb is_entry items = true)
  /\ (forall name b, conv_dir (fs w) !! name = Some b ->
        exists s v, decode_strict b = Some s /\ json_loads s = Some v
                    /\ json_refuses s = None /\ truthy v = true).

(** One request to the store.  A save is of a JSON object whose id, given
    or minted, makes a file name. *)
Inductive request_step : world -> world -> Prop :=
| step_list w : request_step w (snd (list_conversations w))
| step_get conv_id w : request_step w (snd (get_conversation conv_id w))
| step_save payload w :
    file_name (document_name (document_of payload w)) = true ->
    request_step w (snd (save_conversation (JObj payload) w))
| step_delete conv_id w : request_step w (snd (delete_conversation conv_id w)).
End Vocabulary.


(** * Properties *)

(** ** UTF-8 *)

Example decode_ignore_drops : decode_ignore [x61; xff; x62] = "ab".
Proof. reflexivity. Qed.
Example decode_strict_fails : decode_strict [x61; xff; x62] = None.
Proof. reflexivity. Qed.
Example decode_euro : decode_strict [xe2; x82; xac] = Some (string_of_list_byte [xe2; x82; xac]).
Proof. reflexivity. Qed.
Example decode_surrogate : decode_ignore [xed; xa0; x80; x41] = "A".
Proof. reflexivity. Qed.
Example decode_trunc : decode_ignore [x41; xe2; x82] = "A".
Proof. reflexivity. Qed.
Example decode_replace_one :
  encode (decode_replace [x6f; x6f; xff; x70; x73])
  = [x6f; x6f] ++ replacement ++ [x70; x73].
Proof. reflexivity. Qed.
Example decode_replace_surrogate :
  encode (decode_replace [xed; xa0; x80; x41])
  = replacement ++ replacement ++ replacement ++ [x41].
Proof. reflexivity. Qed.
Example decode_replace_trunc :
  encode (decode_replace [xf0; x9f; x41]) = replacement ++ [x41].
Proof. reflexivity. Qed.

Lemma decode_ascii h (bs : bytes) :
  forallb (fun b => (code b <? 0x80)%N) bs = true -> decode h bs = Some bs.
Proof.
  induction bs as [|b bs IH]; simpl; [reflexivity|].
  intros Hb. apply andb_prop in Hb as [Hb Hbs].
  rewrite Hb, (IH Hbs). reflexivity.
Qed.

Lemma decode_strict_encode (s : string) :
  is_ascii s = true -> decode_strict (encode s) = Some s.
Proof.
  intros Hs. unfold decode_strict, encode.
  rewrite (decode_ascii Strict _ Hs), string_of_list_byte_of_string. reflexivity.
Qed.

Lemma scalar_Some bs k out :
  scalar bs k = Some out -> exists out', k = Some out' /\ out = bs ++ out'.
Proof. destruct k; simpl; intros Heq; inversion Heq; eauto. Qed.

(** A byte sequence that decodes strictly is valid UTF-8: it decodes to
    itself, and no handler has anything to drop or to replace. *)
Lemma decode_strict_valid (h : errors) (n : nat) : forall (bs out : bytes),
  length bs <= n ->
  decode Strict bs = Some out -> out = bs /\ decode h bs = Some bs.
Proof.
  induction n as [|n IH]; intros bs out Hlen Hdec.
  - destruct bs; [|simpl in Hlen; lia]. simpl in *. inversion Hdec. auto.
  - destruct bs as [|b0 r0]; [simpl in *; inversion Hdec; auto|].
    simpl in Hlen. cbn [decode] in *.
    repeat match goal with
    | |- context [if ?c then _ else _] => destruct c eqn:?
    | Hd : context [if ?c then _ else _] |- _ => destruct c eqn:?
    | Hd : on_error Strict _ = Some _ |- _ => discriminate Hd
    | Hd : context [match ?r with [] => _ | _ :: _ => _ end] |- _ =>
        is_var r; destruct r; simpl in Hlen
    | Hd : scalar _ _ = Some _ |- _ =>
        apply scalar_Some in Hd as (out' & Hd & ->);
        apply IH in Hd as [-> Hd]; [rewrite Hd; simpl; auto | lia]
    end.
Qed.



Lemma encodes_decodes (s : string) :
  encodes s = true -> decode_strict (encode s) = Some s.
Proof.
  unfold encodes, decode_strict, encode.
  destruct (decode Strict (list_byte_of_string s)) as [out|] eqn:Hdec; [|discriminate].
  intros _.
  destruct (decode_strict_valid Strict _ _ out (le_n _) Hdec) as [-> _].
  rewrite string_of_list_byte_of_string. reflexivity.
Qed.

(** ** Dicts *)

Lemma dict_get_set_eq k v (d : dict) : dict_get k (dict_set k v d) = Some v.
Proof.
  induction d as [|[k' v'] d IH]; simpl.
  - rewrite String.eqb_refl. reflexivity.
  - destruct (String.eqb k' k) eqn:Hk; simpl; rewrite Hk; auto.
Qed.

Lemma dict_get_set_ne k k' v (d : dict) :
  k <> k' -> dict_get k' (dict_set k v d) = dict_get k' d.
Proof.
  intros Hne. induction d as [|[k0 v0] d IH]; simpl.
  - destruct (String.eqb k k') eqn:Hk; [apply String.eqb_eq in Hk; contradiction|reflexivity].
  - destruct (String.eqb k0 k) eqn:Hk; simpl.
    + apply String.eqb_eq in Hk. subst k0.
      destruct (String.eqb k k') eqn:Hk'; [apply String.eqb_eq in Hk'; contradiction|reflexivity].
    + rewrite IH. reflexivity.
Qed.

Lemma is_entry_getitem item :
  is_entry item = true -> py_getitem item "id" = Ok (entry_id item).
Proof.
  destruct item as [| | | | | |d]; simpl; try discriminate.
  destruct (dict_get "id" d); [reflexivity|discriminate].
Qed.

Lemma is_entry_retitled title updated_at item :
  is_entry item = true -> is_entry (retitled title updated_at item) = true.
Proof.
  destruct item as [| | | | | |d]; simpl; try discriminate.
  rewrite !dict_get_set_ne by discriminate. auto.
Qed.

Lemma entry_id_retitled title updated_at item :
  entry_id (retitled title updated_at item) = entry_id item.
Proof.
  destruct item as [| | | | | |d]; simpl; try reflexivity.
  rewrite !dict_get_set_ne by discriminate. reflexivity.
Qed.

Lemma entry_field_retitled title updated_at item k :
  is_entry item = true ->
  entry_field k (retitled title updated_at item) =
    if String.eqb k "updated_at" then Some updated_at
    else if String.eqb k "title" then Some title
    else entry_field k item.
Proof.
  destruct item as [| | | | | |d]; simpl; try discriminate. intros _.
  destruct (String.eqb k "updated_at") eqn:Hu.
  - apply String.eqb_eq in Hu. subst k. apply dict_get_set_eq.
  - apply String.eqb_neq in Hu. rewrite dict_get_set_ne by congruence.
    destruct (String.eqb k "title") eqn:Ht.
    + apply String.eqb_eq in Ht. subst k. apply dict_get_set_eq.
    + apply String.eqb_neq in Ht. rewrite dict_get_set_ne by congruence. reflexivity.
Qed.

(** ** The loop of the upsert *)

Lemma upsert_loop_absent conv_id title updated_at (items : list json) :
  forallb is_entry items = true ->
  existsb (carries conv_id) items = false ->
  upsert_loop conv_id title updated_at items = Ok None.
Proof.
  induction items as [|item rest IH]; simpl; [reflexivity|].
  intros He Hc. apply andb_prop in He as [He Hrest].
  apply orb_false_elim in Hc as [Hc Hcr].
  rewrite (is_entry_getitem _ He). unfold carries in Hc. rewrite Hc.
  rewrite (IH Hrest Hcr). reflexivity.
Qed.

Lemma upsert_loop_present conv_id title updated_at (pre post : list json) item :
  forallb is_entry pre = true ->
  existsb (carries conv_id) pre = false ->
  is_entry item = true ->
  carries conv_id item = true ->
  upsert_loop conv_id title updated_at (pre ++ item :: post)
  = Ok (Some (pre ++ retitled title updated_at item :: post)).
Proof.
  intros Hpre Hnone He Hc.
  induction pre as [|p pre IH]; simpl.
  - rewrite (is_entry_getitem _ He). unfold carries in Hc. rewrite Hc.
    destruct item as [| | | | | |d]; simpl in *; try discriminate. reflexivity.
  - simpl in Hpre, Hnone. apply andb_prop in Hpre as [Hp Hpre].
    apply orb_false_elim in Hnone as [Hpc Hnone].
    rewrite (is_entry_getitem _ Hp). unfold carries in Hpc. rewrite Hpc.
    rewrite (IH Hpre Hnone). reflexivity.
Qed.

(** The first entry that carries an id splits the index around it. *)
Lemma first_carrier conv_id (items : list json) :
  existsb (carries conv_id) items = true ->
  exists pre item post,
    items = pre ++ item :: post /\
    existsb (carries conv_id) pre = false /\
    carries conv_id item = true.
Proof.
  induction items as [|x rest IH]; simpl; [discriminate|].
  destruct (carries conv_id x) eqn:Hx; simpl.
  - intros _. exists [], x, rest. auto.
  - intros Hr. destruct (IH Hr) as (pre & item & post & -> & Hpre & Hit).
    exists (x :: pre), item, post. simpl. rewrite Hx. auto.
Qed.

Lemma without_id_entries conv_id (items : list json) :
  forallb is_entry items = true ->
  without_id conv_id items = Ok (List.filter (fun item => negb (carries conv_id item)) items).
Proof.
  induction items as [|item rest IH]; simpl; [reflexivity|].
  intros He. apply andb_prop in He as [He Hrest].
  rewrite (is_entry_getitem _ He), (IH Hrest). reflexivity.
Qed.

(** ** Reading back what was written *)

Section Store.
Context {codec : JsonCodec} {pystr : PyStr}.

Lemma load_index_world w : snd (_load_index w) = w.
Proof.
  unfold _load_index, try_except, bind, loads, lift, read_text, ret.
  destruct (lookup_file INDEX_PATH (fs w)) as [b|]; [|reflexivity].
  destruct (decode_strict b) as [s|]; [|reflexivity].
  destruct (json_loads s); [|reflexivity].
  destruct (json_refuses s) as [e|]; [|reflexivity].
  destruct e; reflexivity.
Qed.

Lemma load_conversation_world conv_id w : snd (_load_conversation conv_id w) = w.
Proof.
  unfold _load_conversation, bind, exists_, loads, lift, read_text, ret.
  destruct (bool_decide (is_Some (lookup_file (_conversation_path conv_id) (fs w))));
    cbn [negb]; [|reflexivity].
  destruct (lookup_file (_conversation_path conv_id) (fs w)) as [b|]; [|reflexivity].
  destruct (decode_strict b) as [s|]; [|reflexivity].
  destruct (json_loads s); [|reflexivity].
  destruct (json_refuses s); reflexivity.
Qed.

Lemma load_conversation_missing conv_id w :
  lookup_file (_conversation_path conv_id) (fs w) = None ->
  _load_conversation conv_id w = (Ok None, w).
Proof.
  intros Hnone. unfold _load_conversation, bind, exists_.
  rewrite Hnone. rewrite bool_decide_eq_false_2; [reflexivity|].
  intros [x Hx]. discriminate.
Qed.

Lemma upsert_index_entry_run conv_id title updated_at created_at items w :
  index_reads w items ->
  forallb is_entry items = true ->
  exists items',
    upserts conv_id title updated_at created_at items items' /\
    forallb is_entry items' = true /\
    _upsert_index_entry conv_id title updated_at created_at w
    = (Ok tt, written INDEX_PATH (JArr items') w).
Proof.
  intros Hreads Hentries.
  destruct (existsb (carries conv_id) items) eqn:Hc.
  - destruct (first_carrier _ _ Hc) as (pre & item & post & -> & Hpre & Hit).
    rewrite forallb_app in Hentries. apply andb_prop in Hentries as [Hepre Hepost].
    simpl in Hepost. apply andb_prop in Hepost as [Heit Hepost].
    exists (pre ++ retitled title updated_at item :: post). split; [|split].
    + right. exists pre, item, post. auto.
    + rewrite forallb_app. simpl.
      rewrite Hepre, Hepost, (is_entry_retitled _ _ _ Heit). reflexivity.
    + unfold _upsert_index_entry, bind. rewrite Hreads. simpl.
      rewrite (upsert_loop_present _ _ _ _ _ _ Hepre Hpre Heit Hit). reflexivity.
  - exists (items ++ [new_entry conv_id title updated_at created_at]). split; [|split].
    + left. auto.
    + rewrite forallb_app, Hentries. reflexivity.
    + unfold _upsert_index_entry, bind. rewrite Hreads. simpl.
      rewrite (upsert_loop_absent _ _ _ _ Hentries Hc). reflexivity.
Qed.
End Store.

(** ** The upstream client and the relay *)

Lemma relay_framed (ls : list string) : relay ls = framed ls.
Proof.
  unfold framed. induction ls as [|line rest IH]; simpl; [reflexivity|].
  destruct (String.eqb line ""); simpl; rewrite IH; reflexivity.
Qed.

Lemma encode_app (s t : string) : encode (s +:+ t) = encode s ++ encode t.
Proof.
  unfold encode, list_byte_of_string.
  induction s as [|c s IH]; simpl; [reflexivity|]. rewrite IH. reflexivity.
Qed.

(** C5: on a streamed response with a 2xx status, the relay yields one
    chunk per non-empty upstream line, in the order of the lines, each chunk
    being the line followed by one newline byte; empty lines yield nothing,
    and the stream ends without an error. *)
Theorem stream_relays_lines (path : string) (payload : json) (w : world) :
  let r := daemon w (post_request w path payload) in
  let kept := List.filter (fun line => negb (String.eqb line "")) (lines r) in
  (200 <= status_code r <= 299)%Z ->
  _ollama_stream path payload w =
    {| chunks := map (fun line => encode line ++ [x0a]) kept; failure := None |}
  /\ length (chunks (_ollama_stream path payload w)) = length kept.
Proof.
  intros r kept [_ Hhi].
  assert (_ollama_stream path payload w
          = {| chunks := map (fun line => encode line ++ [x0a]) kept; failure := None |}) as ->.
  { unfold _ollama_stream. fold (post_request w path payload). fold r.
    replace (status_code r >=? 400)%Z with false
      by (symmetry; rewrite Z.geb_leb; apply Z.leb_gt; lia).
    rewrite relay_framed. unfold framed. fold kept.
    f_equal. apply map_ext. intros line. rewrite encode_app. reflexivity. }
  split; [reflexivity|]. simpl. apply length_map.
Qed.

Section UpstreamClient.
Context {codec : JsonCodec}.



(** ** The stream flag of the three POST routes *)

Lemma handler_streams (e : endpoint) (d : dict) (w : world) :
  dict_get "stream" d = None \/ dict_get "stream" d = Some (JBool true) ->
  handler e (JObj d) w = streaming (upstream_path e) (JObj d) w.
Proof.
  intros [Hflag|Hflag]; destruct e;
    unfold handler, pull_model, chat, generate, bind, lift, py_get;
    rewrite Hflag; reflexivity.
Qed.

Lemma handler_buffers (e : endpoint) (d : dict) (w : world) :
  dict_get "stream" d = Some (JBool false) ->
  handler e (JObj d) w = buffered (upstream_path e) (JObj d) w.
Proof.
  intros Hflag; destruct e;
    unfold handler, buffered, pull_model, chat, generate, bind, lift, py_get;
    rewrite Hflag; reflexivity.
Qed.

Lemma json_response_run (v : json) (w : world) : json_response v w = (rendered v, w).
Proof. unfold json_response, rendered. destruct (render_error v); reflexivity. Qed.

(** The buffered answer, by the upstream's status and body. *)
Lemma buffered_run (path : string) (payload : json) (w : world) :
  let r := daemon w (post_request w path payload) in
  buffered path payload w
  = (if (status_code r >=? 400)%Z then Raise (HTTPException (status_code r) (text r))
     else match json_loads_bytes (content r) with
          | Ok v => rendered v
          | Raise e => Raise e
          end, w).
Proof.
  intros r. unfold buffered, bind, _ollama_post_json, client_post, bind.
  fold (post_request w path payload). fold r.
  destruct (status_code r >=? 400)%Z; [reflexivity|].
  unfold response_json, lift.
  destruct (json_loads_bytes (content r)) as [v|e]; [apply json_response_run|reflexivity].
Qed.

(** C8, as the code has it: for a JSON object sent to the pull, chat or
    generate route, an absent [stream] flag counts as true.  With the flag
    true (or absent) the answer is a [StreamingResponse] over the streamed
    POST of the payload to the route's upstream path, under the media type
    application/x-ndjson.  With the flag false the payload is forwarded as
    a buffered POST.  An upstream status of 400 or more is raised.  Below
    400, the body is parsed as JSON and the value is returned as a
    [JSONResponse] when it renders, that is when it holds no infinite or
    not-a-number float and no lone surrogate; when it does not render, or
    when the body does not parse, the route raises instead of returning. *)
Theorem stream_flag_selects_mode (e : endpoint) (d : dict) (w : world) :
  let path := upstream_path e in
  let r := daemon w (post_request w path (JObj d)) in
  (dict_get "stream" d = None \/ dict_get "stream" d = Some (JBool true) ->
     handler e (JObj d) w
     = (Ok (StreamingResponse (_ollama_stream path (JObj d) w) "application/x-ndjson"), w))
  /\ (dict_get "stream" d = Some (JBool false) ->
       handler e (JObj d) w = buffered path (JObj d) w
       /\ ((status_code r < 400)%Z -> forall v, json_loads_bytes (content r) = Ok v ->
              render_error v = None ->
              handler e (JObj d) w = (Ok (JSONResponse v), w))
       /\ ((status_code r < 400)%Z -> forall v x, json_loads_bytes (content r) = Ok v ->
              render_error v = Some x ->
              handler e (JObj d) w = (Raise x, w))
       /\ ((status_code r < 400)%Z -> forall x, json_loads_bytes (content r) = Raise x ->
              handler e (JObj d) w = (Raise x, w))
       /\ ((status_code r >= 400)%Z ->
              handler e (JObj d) w = (Raise (HTTPException (status_code r) (text r)), w))).
Proof.
  intros path r. split.
  - intros Hflag. rewrite (handler_streams e d w Hflag). reflexivity.
  - intros Hflag. rewrite (handler_buffers e d w Hflag).
    split; [reflexivity|].
    rewrite (buffered_run (upstream_path e) (JObj d) w). fold path. fold r.
    assert ((status_code r < 400)%Z -> (status_code r >=? 400)%Z = false) as Hlow
      by (intros Hlo; rewrite Z.geb_leb; apply Z.leb_gt; lia).
    split; [|split; [|split]].
    + intros Hlo v Hv Hrender. rewrite (Hlow Hlo), Hv. unfold rendered. rewrite Hrender.
      reflexivity.
    + intros Hlo v x Hv Hrender. rewrite (Hlow Hlo), Hv. unfold rendered. rewrite Hrender.
      reflexivity.
    + intros Hlo x Hx. rewrite (Hlow Hlo), Hx. reflexivity.
    + intros Hhi.
      replace (status_code r >=? 400)%Z with true
        by (symmetry; rewrite Z.geb_leb; apply Z.leb_le; lia).
      reflexivity.
Qed.
End UpstreamClient.

(** ** The conversation store *)

Section Conversations.
Context {codec : JsonCodec} {pystr : PyStr}.

Lemma list_conversations_world (w : world) : snd (list_conversations w) = w.
Proof.
  unfold list_conversations, bind, ret.
  pose proof (load_index_world w) as Hw.
  destruct (_load_index w) as [[items|e] w']; simpl in *; [|exact Hw].
  rewrite json_response_run. exact Hw.
Qed.

Lemma get_conversation_world (conv_id : string) (w : world) :
  snd (get_conversation conv_id w) = w.
Proof.
  unfold get_conversation, bind, ret, raise.
  pose proof (load_conversation_world (JStr conv_id) w) as Hw.
  destruct (_load_conversation (JStr conv_id) w) as [[[v|]|e] w']; simpl in *;
    [destruct (truthy v); [rewrite json_response_run|]| |]; exact Hw.
Qed.

(** C10: a list call and a get call, whether the id is found or not and
    whether they return or raise, leave the index artifact and every
    document artifact as they were (and the rest of the world too). *)
Theorem list_and_get_are_read_only (w : world) (conv_id : string) :
  snd (list_conversations w) = w
  /\ snd (get_conversation conv_id w) = w
  /\ index_file (fs (snd (list_conversations w))) = index_file (fs w)
  /\ conv_dir (fs (snd (list_conversations w))) = conv_dir (fs w)
  /\ index_file (fs (snd (get_conversation conv_id w))) = index_file (fs w)
  /\ conv_dir (fs (snd (get_conversation conv_id w))) = conv_dir (fs w).
Proof.
  rewrite list_conversations_world, get_conversation_world. repeat split.
Qed.

(** What the list call answers, by the content of the index artifact. *)
Lemma list_conversations_parsed (w : world) b s items :
  index_file (fs w) = Some b -> decode_strict b = Some s -> json_loads s = Some items ->
  json_refuses s = None ->
  list_conversations w = (rendered items, w).
Proof.
  intros Hb Hs Hv Hr. unfold list_conversations, _load_index, try_except, bind, loads, lift,
    read_text, ret. simpl. rewrite Hb, Hs, Hv, Hr. apply json_response_run.
Qed.

Lemma list_conversations_refused (w : world) b s items e :
  index_file (fs w) = Some b -> decode_strict b = Some s -> json_loads s = Some items ->
  json_refuses s = Some e -> is_JSONDecodeError e = false ->
  list_conversations w = (Raise e, w).
Proof.
  intros Hb Hs Hv Hr He. unfold list_conversations, _load_index, try_except, bind, loads, lift,
    read_text, ret. simpl. rewrite Hb, Hs, Hv, Hr, He. reflexivity.
Qed.

Lemma list_conversations_unparseable (w : world) b s :
  index_file (fs w) = Some b -> decode_strict b = Some s -> json_loads s = None ->
  list_conversations w = (Ok (JSONResponse (JArr [])), w).
Proof.
  intros Hb Hs Hv. unfold list_conversations, _load_index, try_except, bind, loads, lift,
    read_text, ret. simpl. rewrite Hb, Hs, Hv. reflexivity.
Qed.

Lemma list_conversations_undecodable (w : world) b :
  index_file (fs w) = Some b -> decode_strict b = None ->
  list_conversations w = (Raise UnicodeDecodeError, w).
Proof.
  intros Hb Hs. unfold list_conversations, _load_index, try_except, bind, loads, lift,
    read_text, ret. simpl. rewrite Hb, Hs. reflexivity.
Qed.

(** C7, where the code departs from it: an index artifact whose bytes are
    not UTF-8 (here the single byte FF) is not parseable, and the list call
    does not return the empty sequence: [read_text] raises
    [UnicodeDecodeError], which the handler of [json.JSONDecodeError] in
    [_load_index] does not catch. *)
Theorem list_fails_on_undecodable_index (w : world) :
  let corrupted := with_fs w {| index_file := Some [xff]; conv_dir := conv_dir (fs w) |} in
  list_conversations corrupted = (Raise UnicodeDecodeError, corrupted).
Proof.
  intros corrupted. apply (list_conversations_undecodable corrupted [xff]); reflexivity.
Qed.
End Conversations.

(** ** Writing a document *)

Lemma segments_plain (name : string) :
  forallb (fun c => negb (Ascii.eqb c slash) && negb (Ascii.eqb c nul))
          (list_ascii_of_string name) = true ->
  segments name = [name].
Proof.
  induction name as [|c r IH]; simpl; [reflexivity|].
  intros Hall. apply andb_prop in Hall as [Hc Hr]. apply andb_prop in Hc as [Hc _].
  apply negb_true_iff in Hc. rewrite Hc, (IH Hr). reflexivity.
Qed.

(** A file name leads to the file of that name in the directory of
    documents, whatever the storage holds. *)
Lemma resolve_file_name (s : storage) (name : string) :
  file_name name = true -> resolve s name = Document name.
Proof.
  intros Hfile. pose proof Hfile as Hparts. unfold file_name in Hparts.
  apply andb_prop in Hparts as [Hparts _]. apply andb_prop in Hparts as [Hparts Hlen].
  apply andb_prop in Hparts as [Hparts Hchars].
  unfold resolve. rewrite (segments_plain name Hchars), Hlen.
  cbn [forallb]. unfold walkable. rewrite Hfile, !orb_true_r.
  destruct name as [|c r]; [discriminate|].
  simpl in Hchars. apply andb_prop in Hchars as [Hc _]. apply andb_prop in Hc as [Hc _].
  rewrite Hc. cbn [andb walk]. rewrite Hfile. reflexivity.
Qed.

Lemma write_text_file_name (name t : string) (w : world) :
  file_name name = true ->
  write_text (CONV_DIR name) t w
  = (Ok tt, with_fs w (store_file (CONV_DIR name) (encode t) (fs w))).
Proof.
  intros Hfile. unfold write_text. rewrite (resolve_file_name _ _ Hfile). reflexivity.
Qed.

Section Saving.
Context {codec : JsonCodec} {pystr : PyStr}.

Lemma save_document_run (d : dict) (conv_id : json) (w : world) :
  dict_get "id" d = Some conv_id ->
  file_name (document_name (JObj d)) = true ->
  _save_conversation (JObj d) w = (Ok tt, written (_conversation_path conv_id) (JObj d) w).
Proof.
  intros Hid Hfile. unfold _save_conversation, bind, lift, py_getitem. rewrite Hid.
  unfold document_name, entry_id in Hfile. rewrite Hid in Hfile. simpl in Hfile.
  unfold _conversation_path. rewrite (write_text_file_name _ _ _ Hfile). reflexivity.
Qed.

Lemma load_index_eq w : _load_index w = (index_in (fs w), w).
Proof.
  unfold _load_index, index_in, try_except, bind, loads, lift, read_text, ret. simpl.
  destruct (index_file (fs w)) as [b|]; [|reflexivity].
  destruct (decode_strict b) as [s|]; [|reflexivity].
  destruct (json_loads s); [|reflexivity].
  destruct (json_refuses s) as [e|]; [|reflexivity].
  simpl. destruct (is_JSONDecodeError e); reflexivity.
Qed.

Lemma load_conversation_eq conv_id w :
  _load_conversation conv_id w = (document_in (fs w) conv_id, w).
Proof.
  unfold _load_conversation, document_in, bind, exists_, loads, lift, read_text, ret.
  destruct (lookup_file (_conversation_path conv_id) (fs w)) as [b|] eqn:Hb.
  - rewrite bool_decide_eq_true_2 by eauto. cbn [negb]. rewrite Hb.
    destruct (decode_strict b) as [s|]; [|reflexivity].
    destruct (json_loads s); [|reflexivity].
    destruct (json_refuses s); reflexivity.
  - rewrite bool_decide_eq_false_2; [reflexivity|]. intros [x Hx]. discriminate.
Qed.

Lemma index_reads_in w items : index_reads w items <-> index_in (fs w) = Ok (JArr items).
Proof.
  unfold index_reads. rewrite load_index_eq. split; intros Heq.
  - inversion Heq. reflexivity.
  - rewrite Heq. reflexivity.
Qed.

Lemma index_in_written_index items s :
  index_in (store_file INDEX_PATH (encode (json_dumps items)) s) = Ok items.
Proof.
  unfold index_in. simpl.
  rewrite decode_strict_encode by apply json_dumps_ascii.
  rewrite json_loads_dumps, json_dumps_accepted. reflexivity.
Qed.

Lemma document_in_written conv_id data s :
  document_in (store_file (_conversation_path conv_id) (encode (json_dumps data)) s) conv_id
  = Ok (Some data).
Proof.
  unfold document_in. simpl. rewrite lookup_insert_eq.
  rewrite decode_strict_encode by apply json_dumps_ascii.
  rewrite json_loads_dumps, json_dumps_accepted. reflexivity.
Qed.

Lemma save_conversation_assembles (payload : dict) (w : world) :
  save_conversation (JObj payload) w
  = save_tail (document_of payload w) (at_write payload w).
Proof.
  unfold save_conversation, save_tail, document_of, at_write, or_else, falls_back.
  unfold bind at 1. unfold lift at 1. cbn [py_get].
  destruct (dict_get "id" payload) as [i|]; [destruct (truthy i) eqn:Hi|];
  (destruct (dict_get "title" payload) as [t|]; [destruct (truthy t) eqn:Ht|]);
  (destruct (dict_get "created_at" payload) as [c|]; [destruct (truthy c) eqn:Hc|]);
  unfold bind, lift, py_or, ret, py_get; rewrite ?Hi, ?Ht, ?Hc; cbn;
  rewrite ?Hi, ?Ht, ?Hc; reflexivity.
Qed.

Lemma save_conversation_run (payload : dict) (w : world) (items : list json) :
  index_reads w items ->
  forallb is_entry items = true ->
  file_name (document_name (document_of payload w)) = true ->
  let data := document_of payload w in
  let conv_id := entry_id data in
  exists items',
    upserts conv_id (default JNull (entry_field "title" data))
            (default JNull (entry_field "updated_at" data))
            (default JNull (entry_field "created_at" data)) items items'
    /\ forallb is_entry items' = true
    /\ save_conversation (JObj payload) w
       = (rendered data,
          written INDEX_PATH (JArr items')
            (written (_conversation_path conv_id) data (at_write payload w))).
Proof.
  intros Hreads Hentries Hfile data conv_id.
  set (w1 := written (_conversation_path conv_id) data (at_write payload w)).
  assert (index_reads w1 items) as Hreads1.
  { apply index_reads_in. apply index_reads_in in Hreads. exact Hreads. }
  destruct (upsert_index_entry_run conv_id
              (default JNull (entry_field "title" data))
              (default JNull (entry_field "updated_at" data))
              (default JNull (entry_field "created_at" data)) items w1 Hreads1 Hentries)
    as (items' & Hups & Hent' & Hrun).
  exists items'. split; [exact Hups|]. split; [exact Hent'|].
  rewrite save_conversation_assembles. fold data.
  unfold save_tail. unfold bind at 1.
  assert (_save_conversation data (at_write payload w) = (Ok tt, w1)) as ->
    by (apply save_document_run; [reflexivity|exact Hfile]).
  unfold bind at 1. fold conv_id. rewrite Hrun. apply json_response_run.
Qed.
End Saving.

Section RoundTrip.
Context {codec : JsonCodec} {pystr : PyStr}.

Lemma document_of_provided (payload : dict) (w : world) k v :
  In k ["system"; "settings"; "messages"] ->
  dict_get k payload = Some v ->
  entry_field k (document_of payload w) = Some v.
Proof.
  intros Hk Hv. simpl in Hk.
  destruct Hk as [<-|[<-|[<-|[]]]]; simpl; rewrite Hv; reflexivity.
Qed.

Lemma document_of_truthy (payload : dict) (w : world) k v :
  In k ["id"; "title"; "created_at"] ->
  dict_get k payload = Some v ->
  truthy v = true ->
  entry_field k (document_of payload w) = Some v.
Proof.
  intros Hk Hv Ht. simpl in Hk.
  destruct Hk as [<-|[<-|[<-|[]]]]; simpl; rewrite Hv; simpl; rewrite Ht; reflexivity.
Qed.

Lemma document_of_untitled (payload : dict) (w : world) :
  falls_back (dict_get "title" payload) = true ->
  entry_field "title" (document_of payload w) = Some (JStr "Untitled").
Proof.
  unfold falls_back. intros Hfb. simpl.
  destruct (dict_get "title" payload) as [t|]; simpl; [|reflexivity].
  apply negb_true_iff in Hfb. rewrite Hfb. reflexivity.
Qed.

Lemma falls_back_absent_or_empty (o : option json) :
  o = None \/ o = Some (JStr "") -> falls_back o = true.
Proof. intros [->| ->]; reflexivity. Qed.

Lemma document_of_absent (payload : dict) (w : world) :
  (dict_get "system" payload = None ->
     entry_field "system" (document_of payload w) = Some (JStr ""))
  /\ (dict_get "settings" payload = None ->
     entry_field "settings" (document_of payload w) = Some (JObj []))
  /\ (dict_get "messages" payload = None ->
     entry_field "messages" (document_of payload w) = Some (JArr [])).
Proof. repeat split; intros Hk; simpl; rewrite Hk; reflexivity. Qed.

(** C1, as the code has it: for every payload (a JSON object) whose id,
    given or minted, makes a file name (it has no path separator) and whose
    document renders as a JSON response (it holds no infinite or
    not-a-number float and no lone surrogate), posted to a store whose
    index reads as a list of entries, the save returns the assembled
    document and a fetch by the resulting id returns that same document.
    The document has the payload's system, settings and messages as they
    are given, its id, title and created_at when they are given and not
    empty; the title is "Untitled" when absent or empty (when
    [payload.get("title")] is false), system is the empty string, settings
    the empty mapping and messages the empty sequence when absent, and
    updated_at is the reading of the clock taken by the save. *)
Theorem save_then_get_round_trip (payload : dict) (w : world) (items : list json) :
  index_reads w items ->
  forallb is_entry items = true ->
  file_name (document_name (document_of payload w)) = true ->
  render_error (document_of payload w) = None ->
  let data := document_of payload w in
  let late := count (falls_back (dict_get "created_at" payload)) in
  (exists w',
     save_conversation (JObj payload) w = (Ok (JSONResponse data), w')
     /\ get_conversation (py_format (entry_id data)) w' = (Ok (JSONResponse data), w'))
  /\ (forall k v, In k ["system"; "settings"; "messages"] ->
        dict_get k payload = Some v -> entry_field k data = Some v)
  /\ (forall k v, In k ["id"; "title"; "created_at"] ->
        dict_get k payload = Some v -> truthy v = true -> entry_field k data = Some v)
  /\ (dict_get "title" payload = None \/ dict_get "title" payload = Some (JStr "") ->
        entry_field "title" data = Some (JStr "Untitled"))
  /\ (falls_back (dict_get "title" payload) = true ->
        entry_field "title" data = Some (JStr "Untitled"))
  /\ (dict_get "system" payload = None -> entry_field "system" data = Some (JStr ""))
  /\ (dict_get "settings" payload = None -> entry_field "settings" data = Some (JObj []))
  /\ (dict_get "messages" payload = None -> entry_field "messages" data = Some (JArr []))
  /\ entry_field "updated_at" data = Some (JStr (clock w (late + clock_reads w))).
Proof.
  intros Hreads Hentries Hfile Hrender data late.
  split; [|split; [|split; [|split; [|split; [|split; [|split; [|split]]]]]]].
  - destruct (save_conversation_run payload w items Hreads Hentries Hfile)
      as (items' & _ & _ & Hsave).
    fold data in Hsave, Hrender. unfold rendered in Hsave. rewrite Hrender in Hsave.
    eexists. split; [exact Hsave|].
    unfold get_conversation, bind. rewrite load_conversation_eq.
    assert (document_in
              (fs (written INDEX_PATH (JArr items')
                     (written (_conversation_path (entry_id data)) data (at_write payload w))))
              (JStr (py_format (entry_id data))) = Ok (Some data)) as ->
      by apply (document_in_written (entry_id data)).
    cbn [truthy data document_of]. rewrite json_response_run. unfold rendered.
    fold data. rewrite Hrender. reflexivity.
  - apply document_of_provided.
  - apply document_of_truthy.
  - intros Ht. apply document_of_untitled, falls_back_absent_or_empty, Ht.
  - apply document_of_untitled.
  - apply document_of_absent.
  - apply document_of_absent.
  - apply document_of_absent.
  - reflexivity.
Qed.
End RoundTrip.

(** ** The index under a save *)

Lemma existsb_carries_app conv_id (pre post : list json) item :
  carries conv_id item = true ->
  existsb (carries conv_id) (pre ++ item :: post) = true.
Proof.
  intros Hc. rewrite existsb_app. simpl. rewrite Hc.
  rewrite orb_true_r. reflexivity.
Qed.

Lemma upserts_outcome conv_id title updated_at created_at (items items' : list json) :
  forallb is_entry items = true ->
  upserts conv_id title updated_at created_at items items' ->
  upsert_outcome conv_id title updated_at created_at items items'.
Proof.
  intros Hentries [[Habs ->]|(pre & item & post & -> & Hpre & Hit & ->)]; split.
  - intros _. split; [reflexivity|]. split; [|reflexivity].
    rewrite length_app. simpl. lia.
  - intros Hc. congruence.
  - intros Hc. rewrite (existsb_carries_app _ _ _ _ Hit) in Hc. discriminate.
  - intros _. split; [rewrite !length_app; reflexivity|].
    rewrite forallb_app in Hentries. apply andb_prop in Hentries as [_ He].
    simpl in He. apply andb_prop in He as [He _].
    exists pre, item, (retitled title updated_at item), post.
    repeat split; auto.
    + rewrite entry_field_retitled by exact He. reflexivity.
    + rewrite entry_field_retitled by exact He. reflexivity.
    + intros k Ht Hu. rewrite entry_field_retitled by exact He.
      apply String.eqb_neq in Ht, Hu. rewrite Hu, Ht. reflexivity.
Qed.

Section IndexUnderSave.
Context {codec : JsonCodec} {pystr : PyStr}.

Lemma index_reads_written items w : index_reads (written INDEX_PATH (JArr items) w) items.
Proof. apply index_reads_in. apply index_in_written_index. Qed.

End IndexUnderSave.

(** ** Delete *)

Section Delete.
Context {codec : JsonCodec} {pystr : PyStr}.

Lemma others_carry_not conv_id (items : list json) :
  existsb (carries (JStr conv_id)) (others conv_id items) = false.
Proof.
  unfold others. induction items as [|item rest IH]; simpl; [reflexivity|].
  destruct (carries (JStr conv_id) item) eqn:Hc; simpl; [exact IH|].
  rewrite Hc, IH. reflexivity.
Qed.

Lemma others_entries conv_id (items : list json) :
  forallb is_entry items = true -> forallb is_entry (others conv_id items) = true.
Proof.
  unfold others. induction items as [|item rest IH]; simpl; [reflexivity|].
  intros He. apply andb_prop in He as [He Hrest].
  destruct (carries (JStr conv_id) item); simpl; [auto|]. rewrite He. auto.
Qed.

Lemma delete_conversation_run (conv_id : string) (data : json) (items : list json) (w : world) :
  document_reads w conv_id data ->
  truthy data = true ->
  index_reads w items ->
  forallb is_entry items = true ->
  delete_conversation conv_id w
  = (Ok (JSONResponse (JObj [("ok", JBool true)])), deleted conv_id items w).
Proof.
  intros Hdoc Htruthy Hreads Hentries.
  unfold delete_conversation. unfold bind at 1. rewrite Hdoc.
  unfold not_data. rewrite Htruthy. cbn [negb].
  unfold bind at 1. unfold unlink at 1.
  unfold bind at 1. rewrite load_index_eq.
  assert (index_in (fs (with_fs w (remove_file (_conversation_path (JStr conv_id)) (fs w))))
          = Ok (JArr items)) as ->.
  { apply index_reads_in in Hreads. exact Hreads. }
  unfold bind at 1. unfold lift at 1. cbn [py_iter].
  unfold bind at 1. unfold lift at 1.
  rewrite (without_id_entries _ _ Hentries).
  reflexivity.
Qed.

Lemma delete_conversation_missing (conv_id : string) (w : world) :
  conv_dir (fs w) !! (conv_id +:+ ".json") = None ->
  delete_conversation conv_id w = (Raise (HTTPException 404 "conversation not found"), w).
Proof.
  intros Hnone. unfold delete_conversation. unfold bind at 1.
  rewrite load_conversation_missing by exact Hnone. reflexivity.
Qed.

End Delete.

(** ** Distinct ids *)

Lemma carries_str (conv_id : string) (item : json) :
  carries (JStr conv_id) item = true <-> entry_id item = JStr conv_id.
Proof.
  unfold carries. destruct (entry_id item); simpl; split; intros Heq;
    try discriminate; try (inversion Heq; fail).
  - apply String.eqb_eq in Heq. congruence.
  - inversion Heq. apply String.eqb_refl.
Qed.

Lemma carries_str_false (conv_id : string) (items : list json) :
  existsb (carries (JStr conv_id)) items = false ->
  ~ In (JStr conv_id) (map entry_id items).
Proof.
  induction items as [|item rest IH]; simpl; [tauto|].
  intros Hc. apply orb_false_elim in Hc as [Hc Hrest].
  intros [Heq|Hin]; [|exact (IH Hrest Hin)].
  apply carries_str in Heq. congruence.
Qed.

Lemma carriers_none (conv_id : json) (items : list json) :
  existsb (carries conv_id) items = false ->
  List.filter (carries conv_id) items = [].
Proof.
  induction items as [|item rest IH]; simpl; [reflexivity|].
  intros Hc. apply orb_false_elim in Hc as [Hc Hrest].
  rewrite Hc. auto.
Qed.

Lemma carriers_absent (conv_id : string) (items : list json) :
  ~ In (JStr conv_id) (map entry_id items) ->
  List.filter (carries (JStr conv_id)) items = [].
Proof.
  induction items as [|item rest IH]; simpl; [reflexivity|].
  intros Hnin. destruct (carries (JStr conv_id) item) eqn:Hc.
  - apply carries_str in Hc. tauto.
  - apply IH. tauto.
Qed.

(** Among entries with distinct ids, one that carries the id is the only
    one. *)
Lemma carriers_one (conv_id : string) (pre post : list json) item :
  List.NoDup (map entry_id (pre ++ item :: post)) ->
  carries (JStr conv_id) item = true ->
  length (List.filter (carries (JStr conv_id)) (pre ++ item :: post)) = 1.
Proof.
  intros Hnd Hc. pose proof Hc as Hid. apply carries_str in Hid.
  rewrite map_app in Hnd. simpl in Hnd.
  apply List.NoDup_remove in Hnd as [_ Hnin].
  rewrite List.filter_app. simpl. rewrite Hc. rewrite length_app. simpl.
  rewrite Hid in Hnin.
  rewrite (carriers_absent conv_id pre), (carriers_absent conv_id post); [reflexivity| |];
    intros Hin; apply Hnin, in_or_app; auto.
Qed.

Lemma others_ids_distinct (conv_id : string) (items : list json) :
  List.NoDup (map entry_id items) -> List.NoDup (map entry_id (others conv_id items)).
Proof.
  unfold others. induction items as [|item rest IH]; simpl; [auto|].
  intros Hnd. inversion Hnd as [|x l Hnin Hrest]; subst.
  destruct (carries (JStr conv_id) item); simpl; [auto|].
  constructor; [|auto].
  intros Hin. apply Hnin. apply in_map_iff in Hin as (y & Hy & Hin).
  apply filter_In in Hin as [Hin _]. apply in_map_iff. eauto.
Qed.

Lemma upserts_ids_distinct (conv_id : string) title updated_at created_at
    (items items' : list json) :
  upserts (JStr conv_id) title updated_at created_at items items' ->
  List.NoDup (map entry_id items) ->
  List.NoDup (map entry_id items')
  /\ length (List.filter (carries (JStr conv_id)) items') = 1.
Proof.
  intros [[Habs ->]|(pre & item & post & -> & Hpre & Hit & ->)] Hnd.
  - split.
    + rewrite map_app. simpl. apply List.NoDup_app.
      * exact Hnd.
      * constructor; [simpl; tauto|constructor].
      * intros x Hin [<-|[]]. exact (carries_str_false _ _ Habs Hin).
    + rewrite List.filter_app, (carriers_none _ _ Habs). simpl.
      unfold carries. simpl. rewrite String.eqb_refl. reflexivity.
  - assert (map entry_id (pre ++ retitled title updated_at item :: post)
            = map entry_id (pre ++ item :: post)) as Hids.
    { rewrite !map_app. simpl. rewrite entry_id_retitled. reflexivity. }
    split; [rewrite Hids; exact Hnd|].
    apply carriers_one; [rewrite Hids; exact Hnd|].
    unfold carries. rewrite entry_id_retitled. exact Hit.
Qed.

Section DistinctIds.
Context {codec : JsonCodec} {pystr : PyStr}.

(** C9: on an index that reads as a list of entries with pairwise distinct
    ids, the upsert of an id (alone, or as part of a save of a document with
    that id, when the id makes a file name) leaves an index with pairwise
    distinct ids in which exactly one entry carries the id, and a delete
    that finds its document leaves an index with pairwise distinct ids in
    which no entry carries the id. *)
Theorem distinct_ids_are_preserved (conv_id : string) (title updated_at created_at : json)
    (items : list json) (w : world) :
  index_reads w items ->
  forallb is_entry items = true ->
  List.NoDup (map entry_id items) ->
  (exists items' w',
     _upsert_index_entry (JStr conv_id) title updated_at created_at w = (Ok tt, w')
     /\ index_reads w' items'
     /\ List.NoDup (map entry_id items')
     /\ length (List.filter (carries (JStr conv_id)) items') = 1)
  /\ (forall payload : dict,
        entry_id (document_of payload w) = JStr conv_id ->
        file_name (conv_id +:+ ".json") = true ->
        exists items' w',
          save_conversation (JObj payload) w = (rendered (document_of payload w), w')
          /\ index_reads w' items'
          /\ List.NoDup (map entry_id items')
          /\ length (List.filter (carries (JStr conv_id)) items') = 1)
  /\ (forall data,
        document_reads w conv_id data ->
        truthy data = true ->
        exists w',
          delete_conversation conv_id w
          = (Ok (JSONResponse (JObj [("ok", JBool true)])), w')
          /\ index_reads w' (others conv_id items)
          /\ List.NoDup (map entry_id (others conv_id items))
          /\ List.filter (carries (JStr conv_id)) (others conv_id items) = []).
Proof.
  intros Hreads Hentries Hnd. split; [|split].
  - destruct (upsert_index_entry_run (JStr conv_id) title updated_at created_at items w
                Hreads Hentries) as (items' & Hups & _ & Hrun).
    exists items', (written INDEX_PATH (JArr items') w).
    split; [exact Hrun|]. split; [apply index_reads_written|].
    exact (upserts_ids_distinct _ _ _ _ _ _ Hups Hnd).
  - intros payload Hid Hname.
    assert (file_name (document_name (document_of payload w)) = true) as Hfile
      by (unfold document_name; rewrite Hid; exact Hname).
    destruct (save_conversation_run payload w items Hreads Hentries Hfile)
      as (items' & Hups & _ & Hsave).
    rewrite Hid in Hups, Hsave.
    exists items'. eexists. split; [exact Hsave|].
    split; [apply index_reads_written|].
    exact (upserts_ids_distinct _ _ _ _ _ _ Hups Hnd).
  - intros data Hdoc Htruthy.
    exists (deleted conv_id items w).
    split; [apply (delete_conversation_run conv_id data items w); assumption|].
    split; [apply index_reads_written|].
    split; [apply others_ids_distinct; exact Hnd|].
    apply carriers_none, others_carry_not.
Qed.
End DistinctIds.

(** ** Timestamps *)

Section Timestamps.
Context {codec : JsonCodec} {pystr : PyStr}.

(** C2, as the code has it: every save that returns (its id makes a file
    name and its document renders) sets updated_at to a fresh reading of
    the clock.  The created_at of the saved document is the payload's
    created_at when the payload has one that is not empty, and a reading of
    the clock taken by that save otherwise: a later save of the same id
    keeps created_at when the client sends it back, not by itself.  In the
    index, the entry of an id that is already there keeps its created_at,
    and every field but title and updated_at, across the save; its title
    and updated_at become the document's. *)
Theorem save_sets_timestamps (payload : dict) (items : list json) (w : world) :
  index_reads w items ->
  forallb is_entry items = true ->
  file_name (document_name (document_of payload w)) = true ->
  render_error (document_of payload w) = None ->
  let data := document_of payload w in
  let late := count (falls_back (dict_get "created_at" payload)) in
  exists items' w',
    save_conversation (JObj payload) w = (Ok (JSONResponse data), w')
    /\ index_reads w' items'
    /\ entry_field "updated_at" data = Some (JStr (clock w (late + clock_reads w)))
    /\ clock_reads w' = S late + clock_reads w
    /\ (forall c, dict_get "created_at" payload = Some c -> truthy c = true ->
          entry_field "created_at" data = Some c)
    /\ (falls_back (dict_get "created_at" payload) = true ->
          entry_field "created_at" data = Some (JStr (clock w (clock_reads w))))
    /\ (existsb (carries (entry_id data)) items = true ->
          exists pre item item' post,
            items = pre ++ item :: post
            /\ items' = pre ++ item' :: post
            /\ existsb (carries (entry_id data)) pre = false
            /\ carries (entry_id data) item = true
            /\ entry_field "created_at" item' = entry_field "created_at" item
            /\ entry_field "updated_at" item' = entry_field "updated_at" data
            /\ entry_field "title" item' = entry_field "title" data
            /\ forall k, k <> "title" -> k <> "updated_at" ->
                 entry_field k item' = entry_field k item).
Proof.
  intros Hreads Hentries Hfile Hrender data late.
  destruct (save_conversation_run payload w items Hreads Hentries Hfile)
    as (items' & Hups & _ & Hsave).
  fold data in Hsave, Hrender. unfold rendered in Hsave. rewrite Hrender in Hsave.
  apply upserts_outcome in Hups; [|exact Hentries].
  exists items'. eexists. split; [exact Hsave|].
  split; [apply index_reads_written|].
  split; [reflexivity|]. split; [reflexivity|].
  split; [|split].
  - intros c Hc Ht. apply document_of_truthy; simpl; auto.
  - unfold falls_back. intros Hfb. simpl.
    destruct (dict_get "created_at" payload) as [c|]; simpl; [|reflexivity].
    apply negb_true_iff in Hfb. rewrite Hfb. reflexivity.
  - intros Hc. destruct Hups as [_ Hups].
    destruct (Hups Hc) as (_ & pre & item & item' & post & -> & -> & Hpre & Hit & Ht & Hu & Hk).
    exists pre, item, item', post.
    split; [reflexivity|]. split; [reflexivity|].
    split; [exact Hpre|]. split; [exact Hit|].
    split; [apply Hk; discriminate|].
    split; [exact Hu|]. split; [exact Ht|exact Hk].
Qed.
End Timestamps.

(** ** The states of the store

    The theorems about save and delete ask that the index read as a list of
    entries, and those about delete that the document read as a document.
    Both hold after boot and are kept by every request to the store. *)

Section Invariant.
Context {codec : JsonCodec} {pystr : PyStr}.

Lemma store_ok_boot (w : world) :
  index_file (fs w) = None -> conv_dir (fs w) = ∅ ->
  store_ok (snd (_ensure_data_dirs w)).
Proof.
  intros Hindex Hdir. unfold _ensure_data_dirs, bind, exists_. simpl. rewrite Hindex.
  rewrite bool_decide_eq_false_2 by (intros [x Hx]; discriminate). simpl. split.
  - exists []. split; [|reflexivity]. apply index_reads_in. unfold index_in. simpl.
    rewrite json_loads_brackets, json_brackets_accepted. reflexivity.
  - intros name b. simpl. rewrite Hdir, lookup_empty. discriminate.
Qed.

Lemma store_ok_save (payload : dict) (w : world) :
  file_name (document_name (document_of payload w)) = true ->
  store_ok w -> store_ok (snd (save_conversation (JObj payload) w)).
Proof.
  intros Hfile [(items & Hreads & Hentries) Hdocs].
  destruct (save_conversation_run payload w items Hreads Hentries Hfile)
    as (items' & _ & Hentries' & ->). cbn [snd]. split.
  - exists items'. split; [apply index_reads_written|exact Hentries'].
  - intros name b. simpl.
    destruct (decide (py_format (entry_id (document_of payload w)) +:+ ".json" = name))
      as [<-|Hne].
    + rewrite lookup_insert_eq. intros Hb. inversion Hb; subst b.
      exists (json_dumps (document_of payload w)), (document_of payload w).
      split; [apply decode_strict_encode, json_dumps_ascii|].
      split; [apply json_loads_dumps|].
      split; [apply json_dumps_accepted|reflexivity].
    + rewrite lookup_insert_ne by exact Hne. apply Hdocs.
Qed.

Lemma store_ok_delete (conv_id : string) (w : world) :
  store_ok w -> store_ok (snd (delete_conversation conv_id w)).
Proof.
  intros [(items & Hreads & Hentries) Hdocs].
  destruct (conv_dir (fs w) !! (conv_id +:+ ".json")) as [b|] eqn:Hb.
  - destruct (Hdocs _ _ Hb) as (s & v & Hs & Hv & Hr & Htruthy).
    assert (document_reads w conv_id v) as Hdoc.
    { unfold document_reads. rewrite load_conversation_eq. unfold document_in. simpl.
      rewrite Hb, Hs, Hv, Hr. reflexivity. }
    rewrite (delete_conversation_run conv_id v items w Hdoc Htruthy Hreads Hentries).
    cbn [snd]. split.
    + exists (others conv_id items). split; [apply index_reads_written|].
      apply others_entries, Hentries.
    + intros name b'. simpl. intros Hlook.
      apply lookup_delete_Some in Hlook as [_ Hlook]. exact (Hdocs _ _ Hlook).
  - rewrite (delete_conversation_missing conv_id w Hb). cbn [snd].
    split; [eauto|exact Hdocs].
Qed.

Lemma store_ok_step (w w' : world) : request_step w w' -> store_ok w -> store_ok w'.
Proof.
  intros Hstep Hok. destruct Hstep as [w|conv_id w|payload w Hfile|conv_id w].
  - rewrite list_conversations_world. exact Hok.
  - rewrite get_conversation_world. exact Hok.
  - apply store_ok_save; [exact Hfile|exact Hok].
  - apply store_ok_delete, Hok.
Qed.

Theorem store_ok_reachable (w w' : world) :
  rtc request_step w w' -> store_ok w -> store_ok w'.
Proof. induction 1; eauto using store_ok_step. Qed.
End Invariant.

(** * More of the program *)

(** ** More of the upstream client and the relay *)

Lemma relay_app (ls ls' : list string) : relay (ls ++ ls') = relay ls ++ relay ls'.
Proof.
  induction ls as [|line rest IH]; simpl; [reflexivity|].
  destruct (String.eqb line ""); simpl; rewrite IH; reflexivity.
Qed.

(** X1: the relay works line by line.  Relaying two runs of lines one
    after the other yields the chunks of the first followed by the chunks of
    the second, however the lines are split into runs; there are never more
    chunks than lines; and every chunk is the bytes of a non-empty line
    followed by one newline byte, so no chunk is empty and none is a bare
    newline. *)
Theorem relay_is_line_by_line (ls ls' : list string) :
  relay (ls ++ ls') = relay ls ++ relay ls'
  /\ length (relay ls) <= length ls
  /\ Forall (fun chunk => exists line, In line ls /\ line <> ""
                                       /\ chunk = encode line ++ [x0a]
                                       /\ 2 <= length chunk)
            (relay ls).
Proof.
  split; [apply relay_app|]. split.
  - induction ls as [|line rest IH]; simpl; [lia|].
    destruct (String.eqb line ""); simpl; lia.
  - induction ls as [|line rest IH]; simpl; [constructor|].
    destruct (String.eqb line "") eqn:Hline.
    + eapply Forall_impl; [exact IH|]. intros chunk (l & Hin & Hl). exists l. tauto.
    + constructor.
      * exists line. apply String.eqb_neq in Hline.
        split; [auto|]. split; [exact Hline|]. split; [apply encode_app|].
        rewrite encode_app, length_app. simpl.
        destruct line as [|c line]; [congruence|]. simpl. lia.
      * eapply Forall_impl; [exact IH|]. intros chunk (l & Hin & Hl). exists l. tauto.
Qed.

(** X2: the streaming call takes every status below 400 for a success, not
    only the 2xx ones: the lines of a 1xx or 3xx answer are relayed like
    those of a 200.  And it never yields a chunk and then fails with an
    HTTP error: when it fails, no chunk was yielded. *)
Theorem stream_relays_below_400 (path : string) (payload : json) (w : world) :
  let r := daemon w (post_request w path payload) in
  ((status_code r < 400)%Z ->
     _ollama_stream path payload w = {| chunks := relay (lines r); failure := None |})
  /\ (failure (_ollama_stream path payload w) <> None ->
      chunks (_ollama_stream path payload w) = [] /\ (status_code r >= 400)%Z).
Proof.
  intros r. unfold _ollama_stream. fold (post_request w path payload). fold r.
  destruct (status_code r >=? 400)%Z eqn:Hs; rewrite Z.geb_leb in Hs.
  - apply Z.leb_le in Hs. split; [lia|]. intros _. simpl. split; [reflexivity|lia].
  - apply Z.leb_gt in Hs. split; [reflexivity|]. simpl. congruence.
Qed.

Section ModelRoutes.
Context {codec : JsonCodec}.

(** X3: the two model routes forward a GET of /tags (list_models) or /ps
    (list_running) under the API base.  A status of 400 or more comes back
    as an [HTTPException] with the daemon's status and text.  Below 400 the
    body's bytes go to [json.loads]: what it raises (on a body that is not
    UTF-8, or not JSON) is raised by the route, and the value it returns is
    the route's answer when it renders; when it does not render, what the
    rendering raises is raised.  In every case the world is left as it
    was. *)
Theorem model_routes_forward_get (w : world) :
  let answer (r : response) : result http_response :=
    if (status_code r >=? 400)%Z then Raise (HTTPException (status_code r) (text r))
    else match json_loads_bytes (content r) with
         | Ok v => match render_error v with
                   | Some e => Raise e
                   | None => Ok (JSONResponse v)
                   end
         | Raise e => Raise e
         end in
  list_models w = (answer (daemon w (get_request w "/tags")), w)
  /\ list_running w = (answer (daemon w (get_request w "/ps")), w)
  /\ req_url (get_request w "/tags")
     = default "http://localhost:11434" (environ w !! "OLLAMA_BASE_URL") +:+ "/api/tags".
Proof.
  intros answer. unfold answer, list_models, list_running, _ollama_get, bind, client_get.
  fold (get_request w "/tags"). fold (get_request w "/ps").
  split; [|split].
  - destruct (status_code (daemon w (get_request w "/tags")) >=? 400)%Z; [reflexivity|].
    unfold response_json, lift.
    destruct (json_loads_bytes (content (daemon w (get_request w "/tags")))); [|reflexivity].
    apply json_response_run.
  - destruct (status_code (daemon w (get_request w "/ps")) >=? 400)%Z; [reflexivity|].
    unfold response_json, lift.
    destruct (json_loads_bytes (content (daemon w (get_request w "/ps")))); [|reflexivity].
    apply json_response_run.
  - unfold get_request, OLLAMA_API_BASE, OLLAMA_BASE_URL. simpl.
    generalize (default "http://localhost:11434" (environ w !! "OLLAMA_BASE_URL")).
    intros base. induction base as [|c base IH]; [reflexivity|].
    change (String c base +:+ "/api/tags") with (String c (base +:+ "/api/tags")).
    rewrite <- IH. reflexivity.
Qed.
End ModelRoutes.

(** X4: a body that is not a JSON object is refused before anything is
    done: [payload.get] raises [AttributeError] in the save route and in
    the three POST routes, nothing is asked of the daemon's answer and
    nothing is written. *)
Theorem non_object_payload_raises {codec : JsonCodec} {pystr : PyStr}
    (payload : json) (w : world) :
  (forall d, payload <> JObj d) ->
  save_conversation payload w = (Raise AttributeError, w)
  /\ forall e, handler e payload w = (Raise AttributeError, w).
Proof.
  intros Hnot. split; [|intros e; destruct e];
    destruct payload as [| | | | | |d]; try reflexivity; exfalso; apply (Hnot d); reflexivity.
Qed.

(** ** More of the conversation store *)

Section MoreOfTheStore.
Context {codec : JsonCodec} {pystr : PyStr}.

Lemma load_index_raises (w : world) (e : exn) :
  _load_index w = (Raise e, w) <-> index_in (fs w) = Raise e.
Proof.
  rewrite load_index_eq. split; intros Heq; [inversion Heq; reflexivity|rewrite Heq; reflexivity].
Qed.


(** X5: boot creates the index only when it is missing.  On a data
    directory without an index it writes the text of an empty list, which
    then reads as the empty index; an index that is there, whatever it
    holds, is left as it is; so booting twice is booting once. *)
Theorem boot_creates_or_keeps_index (w : world) :
  (index_file (fs w) = None ->
     _ensure_data_dirs w
     = (Ok tt, with_fs w {| index_file := Some (encode "[]"); conv_dir := conv_dir (fs w) |})
     /\ index_reads (snd (_ensure_data_dirs w)) [])
  /\ (forall b, index_file (fs w) = Some b -> _ensure_data_dirs w = (Ok tt, w))
  /\ _ensure_data_dirs (snd (_ensure_data_dirs w)) = (Ok tt, snd (_ensure_data_dirs w)).
Proof.
  assert (forall w0 b, index_file (fs w0) = Some b -> _ensure_data_dirs w0 = (Ok tt, w0)) as Hkeep.
  { intros w0 b Hb. unfold _ensure_data_dirs, bind, exists_. simpl. rewrite Hb.
    rewrite bool_decide_eq_true_2 by eauto. reflexivity. }
  assert (index_file (fs w) = None ->
          _ensure_data_dirs w
          = (Ok tt, with_fs w {| index_file := Some (encode "[]"); conv_dir := conv_dir (fs w) |}))
    as Hmake.
  { intros Hnone. unfold _ensure_data_dirs, bind, exists_. simpl. rewrite Hnone.
    rewrite bool_decide_eq_false_2 by (intros [x Hx]; discriminate). reflexivity. }
  split; [|split].
  - intros Hnone. split; [exact (Hmake Hnone)|].
    rewrite (Hmake Hnone). apply index_reads_in. unfold index_in. simpl.
    rewrite json_loads_brackets, json_brackets_accepted. reflexivity.
  - exact (Hkeep w).
  - destruct (index_file (fs w)) as [b|] eqn:Hb.
    + rewrite (Hkeep w b Hb). exact (Hkeep w b Hb).
    + rewrite (Hmake eq_refl). apply (Hkeep _ (encode "[]")). reflexivity.
Qed.

(** X6: a store booted on an empty data directory stays readable: after
    any sequence of list, get and delete requests and of saves of JSON
    objects whose id, given or minted, makes a file name, the index reads
    as a list of entries that each have an id, and every document artifact
    reads as a non-empty JSON value, so no such request fails on what an
    earlier one left. *)
Theorem booted_store_stays_readable (w w' : world) :
  index_file (fs w) = None ->
  conv_dir (fs w) = ∅ ->
  rtc request_step (snd (_ensure_data_dirs w)) w' ->
  (exists items, index_reads w' items /\ forallb is_entry items = true)
  /\ (forall name b, conv_dir (fs w') !! name = Some b ->
        exists s v, decode_strict b = Some s /\ json_loads s = Some v
                    /\ json_refuses s = None /\ truthy v = true).
Proof.
  intros Hindex Hdir Hsteps.
  exact (store_ok_reachable _ _ Hsteps (store_ok_boot w Hindex Hdir)).
Qed.

(** X7: what the list call makes of an index artifact that is text (valid
    UTF-8).  Where [json.loads] raises [JSONDecodeError] the answer is the
    empty list.  Where it returns a value, whatever JSON value that is, the
    answer is that value when it renders, and the error of the rendering
    otherwise.  Where it raises another exception, the list call raises it.
    With no index artifact at all the list call raises
    [FileNotFoundError]. *)
Theorem list_answers_on_text_index (w : world) :
  (forall b s, index_file (fs w) = Some b -> decode_strict b = Some s ->
     (json_loads s = None ->
        list_conversations w = (Ok (JSONResponse (JArr [])), w))
     /\ (forall v, json_loads s = Some v -> json_refuses s = None ->
           list_conversations w
           = (match render_error v with
              | Some e => Raise e
              | None => Ok (JSONResponse v)
              end, w))
     /\ (forall v e, json_loads s = Some v -> json_refuses s = Some e ->
           is_JSONDecodeError e = false ->
           list_conversations w = (Raise e, w)))
  /\ (index_file (fs w) = None -> list_conversations w = (Raise FileNotFoundError, w)).
Proof.
  split.
  - intros b s Hb Hs. split; [|split].
    + exact (list_conversations_unparseable w b s Hb Hs).
    + intros v Hv Hr. exact (list_conversations_parsed w b s v Hb Hs Hv Hr).
    + intros v e Hv Hr He. exact (list_conversations_refused w b s v e Hb Hs Hv Hr He).
  - intros Hnone. unfold list_conversations, bind. rewrite load_index_eq.
    unfold index_in. rewrite Hnone. reflexivity.
Qed.


(** X9: delete removes the document before it reads the index.  When the
    document is there but the index cannot be read, the delete raises that
    error after the document artifact is gone; the index artifact is as it
    was, so the conversation stays listed without a document. *)
Theorem delete_removes_document_before_index (conv_id : string) (data : json)
    (w : world) (e : exn) :
  document_reads w conv_id data ->
  truthy data = true ->
  _load_index w = (Raise e, w) ->
  let w1 := with_fs w (remove_file (_conversation_path (JStr conv_id)) (fs w)) in
  delete_conversation conv_id w = (Raise e, w1)
  /\ conv_dir (fs w1) !! (conv_id +:+ ".json") = None
  /\ index_file (fs w1) = index_file (fs w).
Proof.
  intros Hdoc Htruthy Hraise w1. apply load_index_raises in Hraise.
  split; [|split].
  - unfold delete_conversation. unfold bind at 1. rewrite Hdoc.
    unfold not_data. rewrite Htruthy. cbn [negb].
    unfold bind at 1. unfold unlink at 1.
    unfold bind at 1. rewrite load_index_eq. fold w1.
    change (index_in (fs w1)) with (index_in (fs w)). rewrite Hraise.
    reflexivity.
  - simpl. apply lookup_delete_eq.
  - reflexivity.
Qed.

(** X10: a document artifact that holds a false JSON value (null, false,
    0, an empty string, list or object) counts as no document: get and
    delete both answer the 404 "conversation not found", and delete removes
    nothing. *)
Theorem false_document_is_not_found (conv_id : string) (data : json) (w : world) :
  document_reads w conv_id data ->
  truthy data = false ->
  get_conversation conv_id w = (Raise (HTTPException 404 "conversation not found"), w)
  /\ delete_conversation conv_id w = (Raise (HTTPException 404 "conversation not found"), w).
Proof.
  intros Hdoc Hfalse. split.
  - unfold get_conversation, bind. rewrite Hdoc, Hfalse. reflexivity.
  - unfold delete_conversation. unfold bind at 1. rewrite Hdoc.
    unfold not_data. rewrite Hfalse. reflexivity.
Qed.

(** X11: unlike the index, a document artifact that cannot be parsed is
    not recovered from: get and delete raise [UnicodeDecodeError] when it is
    not UTF-8 and [JSONDecodeError] when it is text that is not JSON, and
    delete then removes nothing. *)
Theorem broken_document_raises (conv_id : string) (b : bytes) (w : world) :
  conv_dir (fs w) !! (conv_id +:+ ".json") = Some b ->
  let e := match decode_strict b with
           | None => Some UnicodeDecodeError
           | Some s => match json_loads s with
                       | None => Some JSONDecodeError
                       | Some _ => None
                       end
           end in
  forall e', e = Some e' ->
    get_conversation conv_id w = (Raise e', w)
    /\ delete_conversation conv_id w = (Raise e', w).
Proof.
  intros Hb e e' He.
  assert (document_in (fs w) (JStr conv_id) = Raise e') as Hdoc.
  { unfold document_in. simpl. rewrite Hb. subst e.
    destruct (decode_strict b) as [s|]; [|inversion He; reflexivity].
    destruct (json_loads s); [discriminate|inversion He; reflexivity]. }
  split.
  - unfold get_conversation, bind. rewrite load_conversation_eq, Hdoc. reflexivity.
  - unfold delete_conversation. unfold bind at 1. rewrite load_conversation_eq, Hdoc.
    reflexivity.
Qed.

(** X12: after a delete that succeeded, the conversation is gone for
    good: a get of the id and a second delete of it both answer the 404,
    and the second delete changes nothing. *)
Theorem deleted_conversation_is_not_found (conv_id : string) (data : json)
    (items : list json) (w : world) :
  document_reads w conv_id data ->
  truthy data = true ->
  index_reads w items ->
  forallb is_entry items = true ->
  exists w',
    delete_conversation conv_id w = (Ok (JSONResponse (JObj [("ok", JBool true)])), w')
    /\ get_conversation conv_id w' = (Raise (HTTPException 404 "conversation not found"), w')
    /\ delete_conversation conv_id w'
       = (Raise (HTTPException 404 "conversation not found"), w').
Proof.
  intros Hdoc Htruthy Hreads Hentries.
  exists (deleted conv_id items w).
  split; [apply (delete_conversation_run conv_id data items w); assumption|].
  assert (conv_dir (fs (deleted conv_id items w)) !! (conv_id +:+ ".json") = None) as Hgone
    by (simpl; apply lookup_delete_eq).
  split.
  - unfold get_conversation, bind. rewrite load_conversation_missing by exact Hgone.
    reflexivity.
  - apply delete_conversation_missing, Hgone.
Qed.
End MoreOfTheStore.

(** ** More of the index *)




Section MoreOfTheIndex.
Context {codec : JsonCodec} {pystr : PyStr}.






(** X17: an entry without an id stops the upsert.  When the scan of the
    index meets, before any entry that carries the id, an item that is not
    a dict ([TypeError]) or a dict without ["id"] ([KeyError]), the upsert
    raises and the index artifact is not rewritten. *)
Theorem upsert_raises_on_entry_without_id (conv_id title updated_at created_at : json)
    (pre post : list json) (bad : json) (w : world) :
  index_reads w (pre ++ bad :: post) ->
  forallb is_entry pre = true ->
  existsb (carries conv_id) pre = false ->
  is_entry bad = false ->
  _upsert_index_entry conv_id title updated_at created_at w
  = (Raise (match bad with JObj _ => KeyError "id" | _ => TypeError end), w).
Proof.
  intros Hreads Hpre Hnone Hbad.
  assert (upsert_loop conv_id title updated_at (pre ++ bad :: post)
          = Raise (match bad with JObj _ => KeyError "id" | _ => TypeError end)) as Hloop.
  { clear Hreads. induction pre as [|p pre IH]; simpl.
    - destruct bad as [| | | | | |d]; simpl in *; try reflexivity.
      destruct (dict_get "id" d); [discriminate|reflexivity].
    - simpl in Hpre, Hnone. apply andb_prop in Hpre as [Hp Hpre].
      apply orb_false_elim in Hnone as [Hpc Hnone].
      rewrite (is_entry_getitem _ Hp). unfold carries in Hpc. rewrite Hpc.
      rewrite (IH Hpre Hnone). reflexivity. }
  unfold _upsert_index_entry, bind. rewrite Hreads. simpl. rewrite Hloop. reflexivity.
Qed.
End MoreOfTheIndex.

(** ** More of save *)

Lemma or_else_falls_back (o : option json) (alt : json) :
  falls_back o = true -> or_else o alt = alt.
Proof.
  unfold falls_back, or_else. destruct o as [v|]; [|reflexivity].
  intros Hv. apply negb_true_iff in Hv. rewrite Hv. reflexivity.
Qed.

Lemma or_else_truthy (v alt : json) : truthy v = true -> or_else (Some v) alt = v.
Proof. unfold or_else. intros ->. reflexivity. Qed.

Section MoreOfSave.
Context {codec : JsonCodec} {pystr : PyStr}.

(** X18: a save whose id makes a file name replaces the whole document
    and touches no other.  The artifact named after the id holds the dump
    of the assembled document, whatever it held before: there is no merge
    with an earlier version, and the document has the seven known fields
    and no other, so a field the payload lacks is back to its default and a
    field the store does not know is dropped.  Every other document
    artifact is as it was. *)
Theorem save_replaces_the_document (payload : dict) (items : list json) (w : world) :
  index_reads w items ->
  forallb is_entry items = true ->
  file_name (document_name (document_of payload w)) = true ->
  let data := document_of payload w in
  let name := py_format (entry_id data) +:+ ".json" in
  exists d w',
    save_conversation (JObj payload) w = (rendered data, w')
    /\ data = JObj d
    /\ map fst d = ["id"; "title"; "created_at"; "updated_at"; "system"; "settings"; "messages"]
    /\ conv_dir (fs w') !! name = Some (encode (json_dumps data))
    /\ forall other, other <> name -> conv_dir (fs w') !! other = conv_dir (fs w) !! other.
Proof.
  intros Hreads Hentries Hfile data name.
  destruct (save_conversation_run payload w items Hreads Hentries Hfile)
    as (items' & _ & _ & Hsave).
  eexists. eexists. split; [exact Hsave|].
  split; [reflexivity|]. split; [reflexivity|]. split.
  - simpl. apply lookup_insert_eq.
  - intros other Hother. simpl. apply lookup_insert_ne.
    intros Heq. apply Hother. rewrite <- Heq. reflexivity.
Qed.

(** X19: ids are minted only when needed, and in turn.  A save whose
    payload has a non-empty id keeps that id and draws nothing from the
    uuid generator; two saves in a row whose payloads have no id (or an
    empty one) get the next two draws of the generator as their ids.  The
    ids are taken to make file names, as the 32 hexadecimal digits of
    [uuid4().hex] do. *)
Theorem save_mints_ids_in_turn (p1 p2 : dict) (items : list json) (w : world) :
  index_reads w items ->
  forallb is_entry items = true ->
  (forall i, dict_get "id" p1 = Some i -> truthy i = true ->
     file_name (py_format i +:+ ".json") = true ->
     exists w1,
       save_conversation (JObj p1) w = (rendered (document_of p1 w), w1)
       /\ entry_id (document_of p1 w) = i
       /\ uuid_draws w1 = uuid_draws w)
  /\ (falls_back (dict_get "id" p1) = true ->
      falls_back (dict_get "id" p2) = true ->
      file_name (uuid_hex w (uuid_draws w) +:+ ".json") = true ->
      file_name (uuid_hex w (S (uuid_draws w)) +:+ ".json") = true ->
      exists d1 d2 w1 w2,
        save_conversation (JObj p1) w = (rendered d1, w1)
        /\ save_conversation (JObj p2) w1 = (rendered d2, w2)
        /\ entry_id d1 = JStr (uuid_hex w (uuid_draws w))
        /\ entry_id d2 = JStr (uuid_hex w (S (uuid_draws w)))
        /\ uuid_draws w2 = S (S (uuid_draws w))).
Proof.
  intros Hreads Hentries. split.
  - intros i Hi Htruthy Hname.
    assert (entry_id (document_of p1 w) = i) as Hid
      by (simpl; rewrite Hi; apply or_else_truthy, Htruthy).
    assert (file_name (document_name (document_of p1 w)) = true) as Hfile
      by (unfold document_name; rewrite Hid; exact Hname).
    destruct (save_conversation_run p1 w items Hreads Hentries Hfile)
      as (items1 & _ & _ & Hsave1).
    eexists. split; [exact Hsave1|]. split; [exact Hid|].
    simpl. unfold falls_back. rewrite Hi, Htruthy. reflexivity.
  - intros Hfb1 Hfb2 Hname1 Hname2.
    assert (entry_id (document_of p1 w) = JStr (uuid_hex w (uuid_draws w))) as Hid1
      by (simpl; apply or_else_falls_back, Hfb1).
    assert (file_name (document_name (document_of p1 w)) = true) as Hfile1
      by (unfold document_name; rewrite Hid1; exact Hname1).
    destruct (save_conversation_run p1 w items Hreads Hentries Hfile1)
      as (items1 & _ & Hentries1 & Hsave1).
    set (w1 := written INDEX_PATH (JArr items1)
                 (written (_conversation_path (entry_id (document_of p1 w)))
                    (document_of p1 w) (at_write p1 w))) in *.
    assert (entry_id (document_of p2 w1) = JStr (uuid_hex w (S (uuid_draws w)))) as Hid2
      by (simpl; rewrite (or_else_falls_back _ _ Hfb2), Hfb1; reflexivity).
    assert (file_name (document_name (document_of p2 w1)) = true) as Hfile2
      by (unfold document_name; rewrite Hid2; exact Hname2).
    destruct (save_conversation_run p2 w1 items1 (index_reads_written items1 _) Hentries1
                Hfile2) as (items2 & _ & _ & Hsave2).
    exists (document_of p1 w), (document_of p2 w1), w1. eexists.
    split; [exact Hsave1|]. split; [exact Hsave2|].
    split; [exact Hid1|]. split; [exact Hid2|].
    simpl. rewrite Hfb1, Hfb2. reflexivity.
Qed.



Lemma segments_after (dir rest : string) :
  forallb (fun c => negb (Ascii.eqb c slash) && negb (Ascii.eqb c nul))
          (list_ascii_of_string dir) = true ->
  segments (dir +:+ String slash rest) = dir :: segments rest.
Proof.
  induction dir as [|c r IH]; intros Hall.
  - reflexivity.
  - simpl in Hall. apply andb_prop in Hall as [Hc Hr]. apply andb_prop in Hc as [Hc _].
    apply negb_true_iff in Hc.
    change (String c r +:+ String slash rest) with (String c (r +:+ String slash rest)).
    cbn [segments]. rewrite Hc, (IH Hr). reflexivity.
Qed.

Lemma file_name_parts (name : string) :
  file_name name = true ->
  name <> "" /\ name <> "." /\ name <> ".."
  /\ forallb (fun c => negb (Ascii.eqb c slash) && negb (Ascii.eqb c nul))
             (list_ascii_of_string name) = true.
Proof.
  unfold file_name. intros Hfile.
  apply andb_prop in Hfile as [Hfile _]. apply andb_prop in Hfile as [Hfile _].
  apply andb_prop in Hfile as [Hfile Hchars]. apply andb_prop in Hfile as [Hfile Hdd].
  apply andb_prop in Hfile as [Hne Hd].
  apply negb_true_iff, String.eqb_neq in Hne, Hd, Hdd. auto.
Qed.

(** Where the path of an id with one separator leads: nowhere, since the
    directory of documents holds no directory. *)
Lemma resolve_through (s : storage) (dir rest : string) :
  file_name dir = true ->
  file_name rest = true ->
  (String.length (dir +:+ String slash rest) <= 255)%nat ->
  resolve s (dir +:+ String slash rest)
  = match conv_dir s !! dir with
    | Some _ => NotADirectory
    | None => Missing
    end.
Proof.
  intros Hdir Hrest Hlen.
  destruct (file_name_parts dir Hdir) as (Hne & Hd & Hdd & Hchars).
  destruct (file_name_parts rest Hrest) as (_ & _ & _ & Hrchars).
  unfold resolve. rewrite (segments_after dir rest Hchars), (segments_plain rest Hrchars).
  apply Nat.leb_le in Hlen. rewrite Hlen.
  cbn [forallb]. unfold walkable. rewrite Hdir, Hrest, !orb_true_r.
  destruct dir as [|c r]; [congruence|].
  simpl in Hchars. apply andb_prop in Hchars as [Hc _]. apply andb_prop in Hc as [Hc _].
  change (String c r +:+ String slash rest) with (String c (r +:+ String slash rest)).
  cbv beta iota. rewrite Hc. cbn [andb walk].
  apply String.eqb_neq in Hne, Hd, Hdd. rewrite Hne, Hd, Hdd. reflexivity.
Qed.

(** X23: a separator in the id is followed, and leads nowhere.  A save
    whose id is two file names around a separator walks into the first as
    into a directory; the directory of documents holds none, so the write
    raises [FileNotFoundError], or [NotADirectoryError] when a document
    artifact has that name.  Nothing is written, neither document nor
    index; the clock has been read and the save is lost. *)
Theorem save_through_a_separator_fails (payload : dict) (dir rest : string) (w : world) :
  dict_get "id" payload = Some (JStr (dir +:+ String slash rest)) ->
  file_name dir = true ->
  file_name (rest +:+ ".json") = true ->
  (String.length (dir +:+ String slash (rest +:+ ".json")) <= 255)%nat ->
  save_conversation (JObj payload) w
  = (Raise (match conv_dir (fs w) !! dir with
            | Some _ => NotADirectoryError
            | None => FileNotFoundError
            end), at_write payload w)
  /\ fs (at_write payload w) = fs w.
Proof.
  intros Hid Hdir Hrest Hlen. split; [|reflexivity].
  assert (truthy (JStr (dir +:+ String slash rest)) = true) as Htruthy.
  { destruct dir; [discriminate|reflexivity]. }
  assert (entry_id (document_of payload w) = JStr (dir +:+ String slash rest)) as Hdoc
    by (simpl; rewrite Hid; apply or_else_truthy, Htruthy).
  assert ((dir +:+ String slash rest) +:+ ".json" = dir +:+ String slash (rest +:+ ".json"))
    as Happ.
  { clear. induction dir as [|c r IH]; [reflexivity|].
    change (String c r +:+ String slash rest) with (String c (r +:+ String slash rest)).
    change (String c (r +:+ String slash rest) +:+ ".json")
      with (String c ((r +:+ String slash rest) +:+ ".json")).
    rewrite IH. reflexivity. }
  rewrite save_conversation_assembles.
  unfold save_tail. unfold bind at 1.
  unfold _save_conversation, bind, lift. cbn [py_getitem document_of dict_get String.eqb Ascii.eqb Bool.eqb].
  simpl in Hdoc. rewrite Hdoc.
  unfold _conversation_path, py_format. rewrite Happ.
  unfold write_text. rewrite (resolve_through _ dir (rest +:+ ".json") Hdir Hrest Hlen).
  change (conv_dir (fs (at_write payload w))) with (conv_dir (fs w)).
  destruct (conv_dir (fs w) !! dir); reflexivity.
Qed.

End MoreOfSave.

Section StreamFlag.
Context {codec : JsonCodec}.

(** X21: the stream flag is read by its truth value, not as a boolean.
    Null, false, 0 and an empty string, list or object turn streaming off;
    anything else turns it on, also a non-empty string that spells false
    and any number but 0. *)
Theorem stream_flag_is_a_truth_value (e : endpoint) (d : dict) (w : world) :
  handler e (JObj d) w
  = if truthy (default (JBool true) (dict_get "stream" d))
    then streaming (upstream_path e) (JObj d) w
    else buffered (upstream_path e) (JObj d) w.
Proof.
  destruct e; unfold handler, buffered, pull_model, chat, generate, bind, lift, py_get;
    (destruct (dict_get "stream" d) as [v|]; simpl; [destruct (truthy v)|]; reflexivity).
Qed.
End StreamFlag.

(** ** The reference implementation satisfies the interface *)

Module CompactFacts.
Import Compact.

Ltac each_char c := destruct c as [[] [] [] [] [] [] [] []].

Lemma read_escape_char (c : ascii) (t : text) :
  read_string (escape_char c ++ t)
  = match read_string t with
    | Some (u, rest) => Some (c :: u, rest)
    | None => None
    end.
Proof. each_char c; reflexivity. Qed.

Lemma read_string_escaped (s rest : text) :
  read_string (flat_map escape_char s ++ dquote :: rest) = Some (s, rest).
Proof.
  induction s as [|c s IH]; [reflexivity|].
  cbn [flat_map]. rewrite <- app_assoc, read_escape_char, IH. reflexivity.
Qed.

Lemma uint_is_num (d : Decimal.uint) :
  forallb is_num (chars (NilEmpty.string_of_uint d)) = true.
Proof. induction d; simpl; auto. Qed.

Lemma write_int_is_num (n : Z) : forallb is_num (write_int n) = true.
Proof.
  unfold write_int. destruct (Z.to_int n) as [d|d]; simpl; apply uint_is_num.
Qed.

Lemma is_num_numeric (c : ascii) : is_num c = true -> is_numeric c = true.
Proof. unfold is_numeric. intros ->. reflexivity. Qed.

Lemma is_num_not_mark (c : ascii) : is_num c = true -> Ascii.eqb c "p" = false.
Proof. each_char c; simpl; intros Hn; try discriminate; reflexivity. Qed.

Lemma num_numeric (t : text) : forallb is_num t = true -> forallb is_numeric t = true.
Proof.
  induction t as [|c t IH]; simpl; [reflexivity|]. intros Ht.
  apply andb_prop in Ht as [Hc Ht]. rewrite (is_num_numeric _ Hc), (IH Ht). reflexivity.
Qed.

Lemma write_float_numeric (f : float) : forallb is_numeric (write_float f) = true.
Proof.
  destruct f as [[]|[]| |s m e]; try reflexivity.
  cbn [write_float]. rewrite forallb_app. cbn [forallb].
  rewrite !num_numeric by apply write_int_is_num. reflexivity.
Qed.

(** What follows a number must not go on with it. *)
Definition delimited (rest : text) : bool :=
  match rest with
  | [] => true
  | c :: _ => negb (is_numeric c)
  end.

Lemma span_numeric_app (a rest : text) :
  forallb is_numeric a = true -> delimited rest = true -> span_numeric (a ++ rest) = (a, rest).
Proof.
  intros Ha Hrest. induction a as [|c a IH]; simpl.
  - destruct rest as [|c rest]; [reflexivity|]. simpl in *.
    apply negb_true_iff in Hrest. rewrite Hrest. reflexivity.
  - simpl in Ha. apply andb_prop in Ha as [Hc Ha]. rewrite Hc, (IH Ha). reflexivity.
Qed.

Lemma int_of_text_written (n : Z) : int_of_text (write_int n) = Some n.
Proof.
  unfold int_of_text, write_int, chars. rewrite string_of_list_ascii_of_string.
  rewrite NilEmpty.isi, DecimalZ.of_to. reflexivity.
Qed.

Lemma split_mark_num (t : text) : forallb is_num t = true -> split_mark t = None.
Proof.
  induction t as [|c t IH]; simpl; [reflexivity|]. intros Ht.
  apply andb_prop in Ht as [Hc Ht]. rewrite (is_num_not_mark _ Hc), (IH Ht). reflexivity.
Qed.

Lemma split_mark_app (a b : text) :
  forallb is_num a = true -> split_mark (a ++ "p"%char :: b) = Some (a, b).
Proof.
  induction a as [|c a IH]; simpl; [reflexivity|]. intros Ha.
  apply andb_prop in Ha as [Hc Ha]. rewrite (is_num_not_mark _ Hc), (IH Ha). reflexivity.
Qed.

(** A text is none of the five spellings when a test tells it from each
    of them. *)
Lemma special_none (test : text -> bool) (t : text) :
  test t = true ->
  test (chars "NaN") = false -> test (chars "Infinity") = false ->
  test (chars "-Infinity") = false -> test (chars "0.0") = false ->
  test (chars "-0.0") = false ->
  special (string_of_list_ascii t) = None.
Proof.
  intros Ht H1 H2 H3 H4 H5. unfold special.
  repeat match goal with
  | |- context [String.eqb ?x ?lit] =>
      destruct (String.eqb_spec x lit) as [Heq|_];
      [exfalso; apply (f_equal list_ascii_of_string) in Heq;
       rewrite list_ascii_of_string_of_list_ascii in Heq; subst t; unfold chars in *; congruence|]
  end.
  reflexivity.
Qed.

Lemma special_num (t : text) : forallb is_num t = true -> special (string_of_list_ascii t) = None.
Proof. intros Ht. apply (special_none (forallb is_num) t Ht); reflexivity. Qed.

Lemma special_marked (a b : text) :
  forallb is_num a = true -> special (string_of_list_ascii (a ++ "p"%char :: b)) = None.
Proof.
  intros Ha.
  apply (special_none (fun t => match split_mark t with Some _ => true | None => false end));
    [rewrite (split_mark_app a b Ha)|..]; reflexivity.
Qed.

Lemma number_of_text_int (n : Z) : number_of_text (write_int n) = Some (JInt n).
Proof.
  unfold number_of_text.
  rewrite (special_num _ (write_int_is_num n)), (split_mark_num _ (write_int_is_num n)).
  rewrite int_of_text_written. reflexivity.
Qed.

Lemma number_of_text_float (f : float) : number_of_text (write_float f) = Some (JFloat f).
Proof.
  destruct f as [[]|[]| |s m e]; try reflexivity.
  unfold number_of_text. cbn [write_float].
  rewrite (special_marked _ _ (write_int_is_num _)), (split_mark_app _ _ (write_int_is_num _)).
  rewrite !int_of_text_written. destruct s; reflexivity.
Qed.

(** The numbers: integers and floats. *)
Definition is_number (v : json) : bool :=
  match v with
  | JInt _ => true
  | JFloat _ => true
  | _ => false
  end.

Lemma read_number_written (v : json) (rest : text) :
  is_number v = true -> delimited rest = true ->
  read_number (write v ++ rest) = Some (v, rest).
Proof.
  intros Hv Hrest. unfold read_number.
  destruct v as [| |n|f| | |]; try discriminate; cbn [write].
  - rewrite (span_numeric_app _ _ (num_numeric _ (write_int_is_num n)) Hrest).
    rewrite number_of_text_int. reflexivity.
  - rewrite (span_numeric_app _ _ (write_float_numeric f) Hrest).
    rewrite number_of_text_float. reflexivity.
Qed.

Lemma uint_nonempty (p : positive) : chars (NilEmpty.string_of_uint (Pos.to_uint p)) <> [].
Proof.
  pose proof (Unsigned.to_uint_nonnil p) as Hnn.
  destruct (Pos.to_uint p); simpl; congruence.
Qed.

Lemma write_int_head (n : Z) :
  exists c t, write_int n = c :: t /\ is_num c = true.
Proof.
  pose proof (write_int_is_num n) as Hnum.
  destruct (write_int n) as [|c t] eqn:Hw.
  - exfalso. unfold write_int in Hw. destruct n as [|p|p]; simpl in Hw;
      try discriminate. exact (uint_nonempty p Hw).
  - simpl in Hnum. apply andb_prop in Hnum as [Hc _]. eauto.
Qed.

(** The first character of a number. *)
Definition starts_number (c : ascii) : bool :=
  is_num c || Ascii.eqb c "N" || Ascii.eqb c "I".

Lemma number_head (v : json) :
  is_number v = true -> exists c t, write v = c :: t /\ starts_number c = true.
Proof.
  destruct v as [| |n|f| | |]; try discriminate; intros _; cbn [write].
  - destruct (write_int_head n) as (c & t & -> & Hc). exists c, t.
    unfold starts_number. rewrite Hc. auto.
  - destruct f as [[]|[]| |s m e]; try (eexists; eexists; split; reflexivity).
    cbn [write_float]. destruct (write_int_head (signed s m)) as (c & t & -> & Hc).
    eexists; eexists. split; [reflexivity|]. unfold starts_number. rewrite Hc. reflexivity.
Qed.

(** The property proved of every value: it is read back from what was
    written, before any rest that does not go on with a number, by any fuel
    above the length of what was written. *)
Definition reads_back (v : json) : Prop :=
  forall fuel rest, delimited rest = true -> length (write v) < fuel ->
    read fuel (write v ++ rest) = Some (v, rest).

(** A value never starts with a closing bracket. *)
Definition opens (s : text) : Prop :=
  match s with
  | [] => False
  | c :: _ => Ascii.eqb c "]" = false /\ Ascii.eqb c "}" = false
  end.

Lemma starts_opens c : starts_number c = true ->
  Ascii.eqb c "]" = false /\ Ascii.eqb c "}" = false.
Proof. each_char c; simpl; intros Hn; try discriminate; auto. Qed.

Lemma write_opens (v : json) (rest : text) : opens (write v ++ rest).
Proof.
  destruct (is_number v) eqn:Hv.
  - destruct (number_head v Hv) as (c & t & -> & Hc). simpl. apply starts_opens, Hc.
  - destruct v as [|[]|n|f|s|l|d]; try discriminate; simpl; auto.
Qed.

Lemma read_num_head fuel c t :
  starts_number c = true ->
  read (S fuel) (c :: t) = read_number (c :: t).
Proof.
  intros Hc. cbn [read].
  assert (Ascii.eqb c "n" = false /\ Ascii.eqb c "t" = false /\ Ascii.eqb c "f" = false
          /\ Ascii.eqb c dquote = false /\ Ascii.eqb c "[" = false
          /\ Ascii.eqb c "{" = false /\ is_numeric c = true)
    as (-> & -> & -> & -> & -> & -> & ->).
  { revert Hc. each_char c; simpl; intros Hn; try discriminate; auto 10. }
  reflexivity.
Qed.

Lemma length_join_cons (p : text) (ps : list text) close :
  length p < length (join (p :: ps) close)
  /\ (ps <> [] -> length (join ps close) < length (join (p :: ps) close)).
Proof.
  destruct ps as [|q ps]; cbn [join].
  - rewrite length_app. simpl. split; [lia|congruence].
  - rewrite length_app. cbn [length]. split; [lia|]. intros _. lia.
Qed.

Lemma join_one (p : text) close : join [p] close = p ++ [close].
Proof. reflexivity. Qed.

Lemma join_more (p q : text) (ps : list text) close :
  join (p :: q :: ps) close = p ++ ","%char :: join (q :: ps) close.
Proof. reflexivity. Qed.

Lemma read_items_written (l : list json) :
  Forall reads_back l -> l <> [] ->
  forall fuel rest, length (join (map write l) "]") < fuel ->
    read_items fuel (join (map write l) "]" ++ rest) = Some (l, rest).
Proof.
  induction l as [|x l IH]; [congruence|].
  intros Hall _ fuel rest Hfuel. inversion Hall as [|? ? Hx Hl]; subst.
  destruct fuel as [|f]; [lia|].
  destruct (length_join_cons (write x) (map write l) "]") as [Hlx Hll].
  cbn [map] in Hfuel |- *. cbn [read_items].
  destruct l as [|y l].
  - cbn [map] in *. rewrite join_one, <- app_assoc. cbn [app].
    rewrite Hx; [reflexivity|reflexivity|lia].
  - cbn [map] in *. rewrite join_more, <- app_assoc. cbn [app].
    rewrite Hx; [|reflexivity|lia].
    rewrite IH; [reflexivity|exact Hl|congruence|].
    cbn [map]. assert (write y :: map write l <> []) as Hne by congruence.
    specialize (Hll Hne). lia.
Qed.

Definition write_member (kv : string * json) : text :=
  write_string (fst kv) ++ ":"%char :: write (snd kv).

Lemma read_members_written (d : dict) :
  Forall (fun kv => reads_back (snd kv)) d -> d <> [] ->
  forall fuel rest, length (join (map write_member d) "}") < fuel ->
    read_members fuel (join (map write_member d) "}" ++ rest) = Some (d, rest).
Proof.
  induction d as [|[k v] d IH]; [congruence|].
  intros Hall _ fuel rest Hfuel. inversion Hall as [|? ? Hv Hd]; subst. simpl in Hv.
  destruct fuel as [|f]; [lia|].
  destruct (length_join_cons (write_member (k, v)) (map write_member d) "}") as [Hlx Hll].
  cbn [map] in Hfuel.
  assert (length (write v) < length (write_member (k, v))) as Hlv.
  { unfold write_member. rewrite length_app. simpl. lia. }
  assert (forall tail,
            read_members (S f) (write_member (k, v) ++ tail)
            = match read f (write v ++ tail) with
              | Some (v', ","%char :: r2) =>
                  match read_members f r2 with
                  | Some (d', r') => Some ((k, v') :: d', r')
                  | None => None
                  end
              | Some (v', "}"%char :: r2) => Some ([(k, v')], r2)
              | _ => None
              end) as Hstep.
  { intros tail. unfold write_member, write_string. cbn [fst snd].
    cbn [read_members app]. rewrite Ascii.eqb_refl.
    rewrite <- !app_assoc. cbn [app]. rewrite read_string_escaped.
    unfold chars. rewrite string_of_list_ascii_of_string. reflexivity. }
  cbn [map].
  destruct d as [|y d].
  - cbn [map] in *. rewrite join_one, <- app_assoc. cbn [app]. rewrite Hstep.
    rewrite Hv; [reflexivity|reflexivity|lia].
  - cbn [map] in *. rewrite join_more, <- app_assoc. cbn [app]. rewrite Hstep.
    rewrite Hv; [|reflexivity|lia].
    rewrite IH; [reflexivity|exact Hd|congruence|].
    cbn [map]. assert (write_member y :: map write_member d <> []) as Hne by congruence.
    specialize (Hll Hne). lia.
Qed.

Lemma items_open (x : json) (l : list json) (rest : text) :
  opens (join (map write (x :: l)) "]" ++ rest).
Proof.
  cbn [map]. destruct l as [|y l]; cbn [map];
    [rewrite join_one|rewrite join_more]; rewrite <- app_assoc; apply write_opens.
Qed.

Lemma members_open (x : string * json) (d : dict) (rest : text) :
  exists t, join (map write_member (x :: d)) "}" ++ rest = dquote :: t.
Proof.
  cbn [map]. destruct d as [|y d]; cbn [map];
    [rewrite join_one|rewrite join_more]; unfold write_member at 1, write_string;
    cbn [app]; eexists; reflexivity.
Qed.

Lemma read_written (v : json) : reads_back v.
Proof.
  assert (forall u, is_number u = true -> reads_back u) as Hnumber.
  { intros u Hu fuel rest Hrest Hfuel. destruct fuel as [|f]; [lia|].
    destruct (number_head u Hu) as (c & t & Hw & Hc).
    pose proof (read_number_written u rest Hu Hrest) as Hread.
    rewrite Hw in *. cbn [app] in *. rewrite (read_num_head _ _ _ Hc), Hread. reflexivity. }
  induction v as [|b|n|x|s|l IH|d IH] using json_ind;
    try (apply Hnumber; reflexivity); intros fuel rest Hrest Hfuel;
    (destruct fuel as [|f]; [lia|]).
  - reflexivity.
  - destruct b; reflexivity.
  - cbn [write]. unfold write_string. cbn [app read].
    change (Ascii.eqb dquote "n") with false. change (Ascii.eqb dquote "t") with false.
    change (Ascii.eqb dquote "f") with false. rewrite Ascii.eqb_refl.
    rewrite <- app_assoc. cbn [app]. rewrite read_string_escaped.
    unfold chars. rewrite string_of_list_ascii_of_string. reflexivity.
  - cbn [write] in *. cbn [app length] in *.
    destruct l as [|x l]; [reflexivity|].
    cbn [read]. change (Ascii.eqb "[" "n") with false.
    change (Ascii.eqb "[" "t") with false. change (Ascii.eqb "[" "f") with false.
    change (Ascii.eqb "[" dquote) with false. rewrite Ascii.eqb_refl.
    rewrite (read_items_written (x :: l) IH); [|congruence|lia].
    pose proof (items_open x l rest) as Hopen.
    destruct (join (map write (x :: l)) "]" ++ rest) as [|c t]; [contradiction|].
    destruct Hopen as [Hc _]. revert Hc.
    each_char c; simpl; intros Hc; try discriminate; reflexivity.
  - cbn [write] in *. cbn [app length] in *.
    change (map (fun kv : string * json => write_string (fst kv) ++ ":"%char :: write (snd kv)) d)
      with (map write_member d) in *.
    destruct d as [|x d]; [reflexivity|].
    cbn [read]. change (Ascii.eqb "{" "n") with false.
    change (Ascii.eqb "{" "t") with false. change (Ascii.eqb "{" "f") with false.
    change (Ascii.eqb "{" dquote) with false. change (Ascii.eqb "{" "[") with false.
    rewrite Ascii.eqb_refl.
    rewrite (read_members_written (x :: d) IH); [|congruence|lia].
    destruct (members_open x d rest) as (t & ->).
    reflexivity.
Qed.

Lemma length_string_of_list_ascii (t : text) :
  String.length (string_of_list_ascii t) = length t.
Proof. induction t as [|c t IH]; simpl; auto. Qed.

Lemma loads_dumps (v : json) : loads (dumps v) = Some v.
Proof.
  unfold loads, dumps, chars.
  rewrite list_ascii_of_string_of_list_ascii, length_string_of_list_ascii.
  pose proof (read_written v (S (length (write v))) [] eq_refl (Nat.lt_succ_diag_r _)) as Hr.
  rewrite app_nil_r in Hr. rewrite Hr. reflexivity.
Qed.

End CompactFacts.

Module CompactAscii.
Import Compact.

Definition ascii7 (c : ascii) : bool := (code (byte_of_ascii c) <? 0x80)%N.

Lemma is_ascii_text (t : text) : is_ascii (string_of_list_ascii t) = forallb ascii7 t.
Proof.
  unfold is_ascii, list_byte_of_string.
  rewrite list_ascii_of_string_of_list_ascii.
  induction t as [|c t IH]; simpl; [reflexivity|]. rewrite IH. reflexivity.
Qed.

Lemma escape_char_ascii (c : ascii) : forallb ascii7 (escape_char c) = true.
Proof. CompactFacts.each_char c; reflexivity. Qed.

Lemma write_string_ascii (s : string) : forallb ascii7 (write_string s) = true.
Proof.
  unfold write_string. cbn [forallb]. rewrite forallb_app.
  assert (forallb ascii7 (flat_map escape_char (chars s)) = true) as ->.
  { induction (chars s) as [|c t IH]; simpl; [reflexivity|].
    rewrite forallb_app, escape_char_ascii, IH. reflexivity. }
  reflexivity.
Qed.

Lemma is_num_ascii (c : ascii) : is_num c = true -> ascii7 c = true.
Proof. CompactFacts.each_char c; simpl; intros Hn; try discriminate; reflexivity. Qed.

Lemma write_int_ascii (n : Z) : forallb ascii7 (write_int n) = true.
Proof.
  pose proof (CompactFacts.write_int_is_num n) as Hnum.
  induction (write_int n) as [|c t IH]; simpl in *; [reflexivity|].
  apply andb_prop in Hnum as [Hc Ht]. rewrite (is_num_ascii _ Hc), (IH Ht). reflexivity.
Qed.

Lemma join_ascii (parts : list text) (close : ascii) :
  Forall (fun p => forallb ascii7 p = true) parts -> ascii7 close = true ->
  forallb ascii7 (join parts close) = true.
Proof.
  intros Hparts Hclose. induction Hparts as [|p ps Hp Hps IH]; simpl.
  - rewrite Hclose. reflexivity.
  - destruct ps as [|q ps].
    + rewrite forallb_app, Hp. simpl. rewrite Hclose. reflexivity.
    + rewrite forallb_app, Hp. cbn [forallb]. rewrite IH. reflexivity.
Qed.

Lemma write_ascii (v : json) : forallb ascii7 (write v) = true.
Proof.
  induction v as [|b|n|f|s|l IH|d IH] using json_ind; cbn [write].
  - reflexivity.
  - destruct b; reflexivity.
  - apply write_int_ascii.
  - destruct f as [[]|[]| |sign m e]; try reflexivity.
    cbn [write_float]. rewrite forallb_app, write_int_ascii. cbn [forallb].
    rewrite write_int_ascii. reflexivity.
  - apply write_string_ascii.
  - cbn [forallb]. rewrite join_ascii; [reflexivity| |reflexivity].
    induction IH as [|x l' Hx Hl' IHl]; cbn [map]; constructor; assumption.
  - cbn [forallb]. rewrite join_ascii; [reflexivity| |reflexivity].
    induction IH as [|kv d' Hkv Hd' IHd]; cbn [map]; constructor; [|assumption].
    rewrite forallb_app, write_string_ascii. cbn [forallb andb]. rewrite Hkv. reflexivity.
Qed.

Lemma dumps_ascii (v : json) : is_ascii (dumps v) = true.
Proof. unfold dumps. rewrite is_ascii_text. apply write_ascii. Qed.

End CompactAscii.

(** [json.loads] on bytes, for a body in UTF-8. *)
Definition compact_loads_bytes (b : bytes) : result json :=
  match decode_strict b with
  | None => Raise UnicodeDecodeError
  | Some s => match Compact.loads s with
              | Some v => Ok v
              | None => Raise JSONDecodeError
              end
  end.

(** The interface, implemented: a reader that refuses nothing. *)
#[export] Instance compact_json : JsonCodec := {|
  json_dumps := Compact.dumps;
  json_loads := Compact.loads;
  json_refuses := fun _ => None;
  json_loads_bytes := compact_loads_bytes;
  json_loads_dumps := CompactFacts.loads_dumps;
  json_dumps_accepted := fun _ => eq_refl;
  json_dumps_ascii := CompactAscii.dumps_ascii;
  json_loads_brackets := eq_refl;
  json_brackets_accepted := eq_refl
|}.

(** [str] on values that are not strings: [None], [True], [False] and the
    digits of an integer, as Python writes them; for a float, a list or a
    dict, whose text Python writes by rules of its own, the compact text
    stands in. *)
Definition python_str (v : json) : string :=
  match v with
  | JNull => "None"
  | JBool true => "True"
  | JBool false => "False"
  | _ => Compact.dumps v
  end.

#[export] Instance compact_str : PyStr := python_str.

(** ** A run of the store, from boot *)

(** A daemon that answers every request with an empty JSON object. *)
Definition quiet_daemon (r : request) : response :=
  {| status_code := 200; content := encode "{}"; charset := None; lines := [] |}.

(** A file system that refuses every write outside the two artifacts. *)
Definition read_only_elsewhere (s : storage) (name : string) (b : bytes)
  : result unit * storage :=
  (Raise FileNotFoundError, s).

Definition t0 : string := "2026-01-01T10:00:00+00:00".
Definition t1 : string := "2026-01-01T10:00:01+00:00".
Definition t2 : string := "2026-01-01T10:05:00+00:00".
Definition t3 : string := "2026-01-01T10:05:01+00:00".

Definition demo_clock (n : nat) : string := nth n [t0; t1; t2; t3] "2026-01-02T00:00:00+00:00".

Definition demo_uuid (n : nat) : string :=
  nth n ["0123456789abcdef0123456789abcdef"] "fedcba9876543210fedcba9876543210".

(** Before boot: no index, no document. *)
Definition fresh_world : world :=
  {| fs := {| index_file := None; conv_dir := ∅ |};
     elsewhere := read_only_elsewhere;
     environ := ∅; daemon := quiet_daemon;
     clock := demo_clock; clock_reads := 0;
     uuid_hex := demo_uuid; uuid_draws := 0 |}.

Definition booted : world := snd (_ensure_data_dirs fresh_world).

Definition hello : json := JObj [("role", JStr "user"); ("content", JStr "hi")].

Definition demo_payload : dict := [("title", JStr "Demo"); ("messages", JArr [hello])].

Definition demo_id : string := "0123456789abcdef0123456789abcdef".

Definition demo_document : json :=
  JObj [("id", JStr demo_id); ("title", JStr "Demo");
        ("created_at", JStr t0); ("updated_at", JStr t1);
        ("system", JStr ""); ("settings", JObj []); ("messages", JArr [hello])].

Definition demo_entry : json :=
  JObj [("id", JStr demo_id); ("title", JStr "Demo");
        ("created_at", JStr t0); ("updated_at", JStr t1)].

(** After the first save of the demo payload. *)
Definition saved_once : world := snd (save_conversation (JObj demo_payload) booted).

Lemma booted_index : index_reads booted [].
Proof. reflexivity. Qed.

Lemma first_save : save_conversation (JObj demo_payload) booted
                   = (Ok (JSONResponse demo_document), saved_once).
Proof. vm_compute. reflexivity. Qed.

Lemma saved_once_index : index_reads saved_once [demo_entry].
Proof. vm_compute. reflexivity. Qed.

Lemma saved_once_document : document_reads saved_once demo_id demo_document.
Proof. vm_compute. reflexivity. Qed.

(** ** The theorems at work on the run *)

(** C1 on the first save after boot: the demo payload is saved under a
    minted id and fetched back. *)
Lemma save_then_get_round_trip_witness :
  index_reads booted []
  /\ file_name (demo_id +:+ ".json") = true
  /\ render_error demo_document = None
  /\ exists w',
       save_conversation (JObj demo_payload) booted = (Ok (JSONResponse demo_document), w')
       /\ get_conversation demo_id w' = (Ok (JSONResponse demo_document), w').
Proof.
  split; [vm_compute; reflexivity|].
  split; [vm_compute; reflexivity|].
  split; [vm_compute; reflexivity|].
  exact (proj1 (save_then_get_round_trip (codec := compact_json) (pystr := compact_str) demo_payload booted []
                  ltac:(vm_compute; reflexivity) ltac:(reflexivity)
                  ltac:(vm_compute; reflexivity) ltac:(vm_compute; reflexivity))).
Defined.

Definition nested_payload : dict := [("id", JStr "a/b"); ("title", JStr "Demo")].

(** C1 as stated fails: not every payload is saved.  An id with a path
    separator names a file in a directory that is not there: the save
    raises [FileNotFoundError] after reading the clock, nothing is stored,
    and there is no document to fetch. *)
Lemma save_fails_on_id_with_separator :
  save_conversation (JObj nested_payload) booted
  = (Raise FileNotFoundError, advance 2 0 booted)
  /\ fs (advance 2 0 booted) = fs booted
  /\ conv_dir (fs (advance 2 0 booted)) = ∅.
Proof.
  split; [vm_compute; reflexivity|]. split; reflexivity.
Qed.

Definition renamed_payload : dict :=
  [("id", JStr demo_id); ("title", JStr "Renamed"); ("created_at", JStr t0)].

(** C2 as amended, on a second save that sends the first created_at back. *)
Lemma save_sets_timestamps_witness :
  index_reads saved_once [demo_entry]
  /\ exists items' w',
       save_conversation (JObj renamed_payload) saved_once
       = (Ok (JSONResponse (document_of renamed_payload saved_once)), w')
       /\ index_reads w' items'
       /\ entry_field "updated_at" (document_of renamed_payload saved_once) = Some (JStr t2)
       /\ entry_field "created_at" (document_of renamed_payload saved_once) = Some (JStr t0).
Proof.
  split; [vm_compute; reflexivity|].
  destruct (save_sets_timestamps (codec := compact_json) (pystr := compact_str) renamed_payload [demo_entry] saved_once
              ltac:(vm_compute; reflexivity) ltac:(reflexivity)
              ltac:(vm_compute; reflexivity) ltac:(vm_compute; reflexivity))
    as (items' & w' & Hsave & Hreads & Hupdated & _ & Hcreated & _).
  exists items', w'. split; [exact Hsave|]. split; [exact Hreads|].
  split; [exact Hupdated|].
  apply Hcreated; reflexivity.
Defined.

Definition reposted_payload : dict := [("id", JStr demo_id); ("title", JStr "Renamed")].

(** C2 as stated fails: a second save of the same id with a new title and
    no created_at answers with a created_at that is not the first one. *)
Lemma created_at_changes_on_repost :
  exists d1 d2 w1 w2,
    save_conversation (JObj demo_payload) booted = (Ok (JSONResponse d1), w1)
    /\ entry_id d1 = JStr demo_id
    /\ save_conversation (JObj reposted_payload) w1 = (Ok (JSONResponse d2), w2)
    /\ entry_id d2 = JStr demo_id
    /\ entry_field "created_at" d1 = Some (JStr t0)
    /\ entry_field "created_at" d2 = Some (JStr t2)
    /\ entry_field "created_at" d1 <> entry_field "created_at" d2.
Proof.
  exists demo_document, (document_of reposted_payload saved_once), saved_once,
    (snd (save_conversation (JObj reposted_payload) saved_once)).
  split; [vm_compute; reflexivity|]. split; [reflexivity|].
  split; [vm_compute; reflexivity|]. split; [reflexivity|].
  split; [reflexivity|]. split; [reflexivity|]. discriminate.
Qed.



(** C9 on the run. *)
Lemma distinct_ids_are_preserved_witness :
  List.NoDup (map entry_id [demo_entry])
  /\ exists items' w',
       _upsert_index_entry (JStr demo_id) (JStr "Renamed") (JStr t2) (JStr t0) saved_once
       = (Ok tt, w')
       /\ index_reads w' items'
       /\ List.NoDup (map entry_id items')
       /\ length (List.filter (carries (JStr demo_id)) items') = 1.
Proof.
  assert (List.NoDup (map entry_id [demo_entry])) as Hnd
    by (constructor; [simpl; tauto|constructor]).
  split; [exact Hnd|].
  exact (proj1 (distinct_ids_are_preserved (codec := compact_json) (pystr := compact_str) demo_id (JStr "Renamed") (JStr t2) (JStr t0)
                  [demo_entry] saved_once
                  ltac:(vm_compute; reflexivity) ltac:(reflexivity) Hnd)).
Defined.

(** ** The theorems at work on upstream answers *)

Definition with_daemon (d : request -> response) : world :=
  {| fs := fs booted; elsewhere := read_only_elsewhere; environ := ∅; daemon := d;
     clock := demo_clock; clock_reads := 0;
     uuid_hex := demo_uuid; uuid_draws := 0 |}.

(** An upstream that streams three lines of JSON text and an empty one. *)
Definition three_lines (r : request) : response :=
  {| status_code := 200; content := []; charset := None;
     lines := ["{}"; ""; "[1]"; "[2]"] |}.

(** An upstream that rejects with 500 and a text body. *)
Definition model_not_found (r : request) : response :=
  {| status_code := 500; content := encode "model not found";
     charset := None; lines := [] |}.


(** An upstream that answers 200 with the body NaN, which [json.loads]
    takes for a float. *)
Definition answers_nan (r : request) : response :=
  {| status_code := 200; content := encode "NaN"; charset := None; lines := [] |}.

Definition chat_payload (stream : bool) : dict :=
  [("model", JStr "x"); ("messages", JArr [hello]); ("stream", JBool stream)].

(** C5 on three lines and an empty one: three chunks, in order. *)
Lemma stream_relays_lines_witness :
  _ollama_stream "/generate" (JObj (chat_payload true)) (with_daemon three_lines)
  = {| chunks := [encode "{}" ++ [x0a]; encode "[1]" ++ [x0a]; encode "[2]" ++ [x0a]];
       failure := None |}
  /\ length (chunks (_ollama_stream "/generate" (JObj (chat_payload true))
                       (with_daemon three_lines))) = 3.
Proof.
  exact (stream_relays_lines "/generate" (JObj (chat_payload true)) (with_daemon three_lines)
           ltac:(vm_compute; split; discriminate)).
Defined.



(** C8 as amended, on the chat route: with the flag false, a 500 of the
    upstream comes back as the same 500 and the JSON of a 200 is returned;
    with the flag true or absent, the answer is a stream of the three
    lines. *)
Lemma stream_flag_selects_mode_witness :
  handler Chat (JObj (chat_payload false)) (with_daemon model_not_found)
  = (Raise (HTTPException 500 "model not found"), with_daemon model_not_found)
  /\ handler Chat (JObj (chat_payload false)) (with_daemon quiet_daemon)
     = (Ok (JSONResponse (JObj [])), with_daemon quiet_daemon)
  /\ handler Chat (JObj (chat_payload true)) (with_daemon three_lines)
     = (Ok (StreamingResponse
              {| chunks := [encode "{}" ++ [x0a]; encode "[1]" ++ [x0a]; encode "[2]" ++ [x0a]];
                 failure := None |} "application/x-ndjson"),
        with_daemon three_lines)
  /\ handler Chat (JObj [("model", JStr "x")]) (with_daemon three_lines)
     = (Ok (StreamingResponse
              {| chunks := [encode "{}" ++ [x0a]; encode "[1]" ++ [x0a]; encode "[2]" ++ [x0a]];
                 failure := None |} "application/x-ndjson"),
        with_daemon three_lines).
Proof.
  split; [|split; [|split]].
  - exact (proj2 (proj2 (proj2 (proj2 (proj2 (stream_flag_selects_mode (codec := compact_json)
                                                Chat (chat_payload false)
                                                (with_daemon model_not_found)) eq_refl))))
             ltac:(vm_compute; discriminate)).
  - exact (proj1 (proj2 (proj2 (stream_flag_selects_mode (codec := compact_json)
                                  Chat (chat_payload false)
                                  (with_daemon quiet_daemon)) eq_refl))
             ltac:(vm_compute; reflexivity) (JObj []) ltac:(vm_compute; reflexivity) eq_refl).
  - exact (proj1 (stream_flag_selects_mode (codec := compact_json) Chat (chat_payload true)
                    (with_daemon three_lines)) (or_intror eq_refl)).
  - exact (proj1 (stream_flag_selects_mode (codec := compact_json) Chat [("model", JStr "x")]
                    (with_daemon three_lines)) (or_introl eq_refl)).
Defined.

(** C8 as stated fails: with the flag false and an upstream that answers
    200 with the body NaN, the buffered JSON result is not returned.
    [json.loads] takes the body for a float, [JSONResponse] refuses to
    render it, and the route raises [ValueError]. *)
Lemma buffered_result_is_not_returned :
  let w := with_daemon answers_nan in
  let r := daemon w (post_request w "/chat" (JObj (chat_payload false))) in
  dict_get "stream" (chat_payload false) = Some (JBool false)
  /\ (status_code r < 400)%Z
  /\ json_loads_bytes (content r) = Ok (JFloat FNaN)
  /\ _ollama_post_json "/chat" (JObj (chat_payload false)) w = (Ok (JFloat FNaN), w)
  /\ chat (JObj (chat_payload false)) w = (Raise ValueError, w).
Proof.
  split; [reflexivity|]. split; [vm_compute; reflexivity|].
  split; [vm_compute; reflexivity|]. split; vm_compute; reflexivity.
Qed.

(** ** More runs *)

(** The store after the first save, with an index that is not UTF-8. *)
Definition index_not_utf8 : world :=
  with_fs saved_once {| index_file := Some [xff]; conv_dir := conv_dir (fs saved_once) |}.

(** The booted store with an index that is text but not JSON. *)
Definition index_not_json : world :=
  with_fs booted {| index_file := Some (encode "not json"); conv_dir := ∅ |}.

(** The booted store with one document artifact of the given content. *)
Definition with_document (name : string) (b : bytes) : world :=
  with_fs booted {| index_file := index_file (fs booted); conv_dir := {[ name := b ]} |}.


Definition no_id_entry : json := JObj [("title", JStr "Lost")].

(** The booted store with an entry that has no id. *)
Definition with_no_id_entry : world := written INDEX_PATH (JArr [no_id_entry]) booted.

(** X4 at work. *)
Lemma non_object_payload_raises_witness :
  save_conversation (JArr [hello]) booted = (Raise AttributeError, booted)
  /\ chat (JStr "hi") booted = (Raise AttributeError, booted).
Proof.
  destruct (non_object_payload_raises (codec := compact_json) (pystr := compact_str)
              (JArr [hello]) booted ltac:(discriminate)) as [Hsave _].
  destruct (non_object_payload_raises (codec := compact_json) (pystr := compact_str)
              (JStr "hi") booted ltac:(discriminate)) as [_ Hroutes].
  split; [exact Hsave|exact (Hroutes Chat)].
Defined.

(** X2 at work. *)
Lemma stream_relays_below_400_witness :
  _ollama_stream "/pull" (JObj (chat_payload true))
    (with_daemon (fun _ => {| status_code := 302; content := []; charset := None;
                              lines := ["{}"; ""] |}))
  = {| chunks := [encode "{}" ++ [x0a]]; failure := None |}.
Proof.
  exact (proj1 (stream_relays_below_400 "/pull" (JObj (chat_payload true))
                  (with_daemon (fun _ => {| status_code := 302; content := []; charset := None;
                                            lines := ["{}"; ""] |})))
           ltac:(vm_compute; reflexivity)).
Defined.

(** X5 at work. *)
Lemma boot_creates_or_keeps_index_witness :
  index_reads (snd (_ensure_data_dirs fresh_world)) []
  /\ _ensure_data_dirs index_not_json = (Ok tt, index_not_json).
Proof.
  destruct (boot_creates_or_keeps_index (codec := compact_json) fresh_world)
    as (Hmake & _).
  destruct (boot_creates_or_keeps_index (codec := compact_json) index_not_json)
    as (_ & Hkeep & _).
  split; [exact (proj2 (Hmake eq_refl))|exact (Hkeep _ eq_refl)].
Defined.

Lemma demo_name : file_name (document_name (document_of demo_payload booted)) = true.
Proof. vm_compute. reflexivity. Qed.

(** X6 at work. *)
Lemma booted_store_stays_readable_witness :
  (exists items, index_reads saved_once items /\ forallb is_entry items = true)
  /\ (forall name b, conv_dir (fs saved_once) !! name = Some b ->
        exists s v, decode_strict b = Some s /\ json_loads s = Some v
                    /\ json_refuses s = None /\ truthy v = true).
Proof.
  exact (booted_store_stays_readable (codec := compact_json) (pystr := compact_str)
           fresh_world saved_once eq_refl eq_refl
           (rtc_once _ _ (step_save demo_payload booted demo_name))).
Defined.

(** X7 at work. *)
Lemma list_answers_on_text_index_witness :
  list_conversations index_not_json = (Ok (JSONResponse (JArr [])), index_not_json)
  /\ list_conversations saved_once = (Ok (JSONResponse (JArr [demo_entry])), saved_once)
  /\ list_conversations fresh_world = (Raise FileNotFoundError, fresh_world).
Proof.
  split; [|split].
  - exact (proj1 (proj1 (list_answers_on_text_index (codec := compact_json) index_not_json)
                    (encode "not json") "not json" eq_refl ltac:(vm_compute; reflexivity))
             ltac:(vm_compute; reflexivity)).
  - exact (proj1 (proj2 (proj1 (list_answers_on_text_index (codec := compact_json) saved_once)
                           (encode (Compact.dumps (JArr [demo_entry])))
                           (Compact.dumps (JArr [demo_entry]))
                           ltac:(vm_compute; reflexivity) ltac:(vm_compute; reflexivity)))
             (JArr [demo_entry]) ltac:(vm_compute; reflexivity) eq_refl).
  - exact (proj2 (list_answers_on_text_index (codec := compact_json) fresh_world) eq_refl).
Defined.



(** X9 at work. *)
Lemma delete_removes_document_before_index_witness :
  document_reads index_not_utf8 demo_id demo_document
  /\ exists w1,
       delete_conversation demo_id index_not_utf8 = (Raise UnicodeDecodeError, w1)
       /\ conv_dir (fs w1) !! (demo_id +:+ ".json") = None
       /\ index_file (fs w1) = Some [xff].
Proof.
  split; [vm_compute; reflexivity|].
  eexists.
  exact (delete_removes_document_before_index (codec := compact_json) (pystr := compact_str)
           demo_id demo_document index_not_utf8 UnicodeDecodeError
           ltac:(vm_compute; reflexivity) eq_refl ltac:(vm_compute; reflexivity)).
Defined.

(** X10 at work. *)
Lemma false_document_is_not_found_witness :
  document_reads (with_document "x.json" (encode "{}")) "x" (JObj [])
  /\ get_conversation "x" (with_document "x.json" (encode "{}"))
     = (Raise (HTTPException 404 "conversation not found"),
        with_document "x.json" (encode "{}"))
  /\ delete_conversation "x" (with_document "x.json" (encode "{}"))
     = (Raise (HTTPException 404 "conversation not found"),
        with_document "x.json" (encode "{}")).
Proof.
  split; [vm_compute; reflexivity|].
  exact (false_document_is_not_found (codec := compact_json) (pystr := compact_str)
           "x" (JObj []) (with_document "x.json" (encode "{}"))
           ltac:(vm_compute; reflexivity) eq_refl).
Defined.

(** X11 at work. *)
Lemma broken_document_raises_witness :
  (get_conversation "x" (with_document "x.json" (encode "{"))
   = (Raise JSONDecodeError, with_document "x.json" (encode "{"))
   /\ delete_conversation "x" (with_document "x.json" (encode "{"))
      = (Raise JSONDecodeError, with_document "x.json" (encode "{")))
  /\ (get_conversation "x" (with_document "x.json" [xc3])
      = (Raise UnicodeDecodeError, with_document "x.json" [xc3])
      /\ delete_conversation "x" (with_document "x.json" [xc3])
         = (Raise UnicodeDecodeError, with_document "x.json" [xc3])).
Proof.
  split.
  - exact (broken_document_raises (codec := compact_json) (pystr := compact_str)
             "x" (encode "{") (with_document "x.json" (encode "{"))
             ltac:(vm_compute; reflexivity) JSONDecodeError ltac:(vm_compute; reflexivity)).
  - exact (broken_document_raises (codec := compact_json) (pystr := compact_str)
             "x" [xc3] (with_document "x.json" [xc3])
             ltac:(vm_compute; reflexivity) UnicodeDecodeError ltac:(vm_compute; reflexivity)).
Defined.

(** X12 at work. *)
Lemma deleted_conversation_is_not_found_witness :
  exists w',
    delete_conversation demo_id saved_once
    = (Ok (JSONResponse (JObj [("ok", JBool true)])), w')
    /\ get_conversation demo_id w' = (Raise (HTTPException 404 "conversation not found"), w')
    /\ delete_conversation demo_id w'
       = (Raise (HTTPException 404 "conversation not found"), w').
Proof.
  exact (deleted_conversation_is_not_found (codec := compact_json) (pystr := compact_str)
           demo_id demo_document [demo_entry] saved_once
           ltac:(vm_compute; reflexivity) eq_refl ltac:(vm_compute; reflexivity) eq_refl).
Defined.





(** X17 at work. *)
Lemma upsert_raises_on_entry_without_id_witness :
  index_reads with_no_id_entry [no_id_entry]
  /\ _upsert_index_entry (JStr "b2") (JStr "Second") (JStr t1) (JStr t0) with_no_id_entry
     = (Raise (KeyError "id"), with_no_id_entry).
Proof.
  split; [vm_compute; reflexivity|].
  exact (upsert_raises_on_entry_without_id (codec := compact_json)
           (JStr "b2") (JStr "Second") (JStr t1) (JStr t0) [] [] no_id_entry with_no_id_entry
           ltac:(vm_compute; reflexivity) eq_refl eq_refl eq_refl).
Defined.

(** X18 at work. *)
Lemma save_replaces_the_document_witness :
  exists d w',
    save_conversation (JObj reposted_payload) saved_once
    = (Ok (JSONResponse (document_of reposted_payload saved_once)), w')
    /\ document_of reposted_payload saved_once = JObj d
    /\ dict_get "messages" d = Some (JArr [])
    /\ conv_dir (fs w') !! (demo_id +:+ ".json")
       = Some (encode (json_dumps (document_of reposted_payload saved_once))).
Proof.
  destruct (save_replaces_the_document (codec := compact_json) (pystr := compact_str)
              reposted_payload [demo_entry] saved_once
              ltac:(vm_compute; reflexivity) eq_refl ltac:(vm_compute; reflexivity))
    as (d & w' & Hsave & Hd & _ & Hfile & _).
  exists d, w'. split; [exact Hsave|]. split; [exact Hd|].
  split; [|exact Hfile]. inversion Hd. reflexivity.
Defined.

(** X19 at work. *)
Lemma save_mints_ids_in_turn_witness :
  exists d1 d2 w1 w2,
    save_conversation (JObj demo_payload) booted = (rendered d1, w1)
    /\ save_conversation (JObj demo_payload) w1 = (rendered d2, w2)
    /\ entry_id d1 = JStr "0123456789abcdef0123456789abcdef"
    /\ entry_id d2 = JStr "fedcba9876543210fedcba9876543210".
Proof.
  destruct (proj2 (save_mints_ids_in_turn (codec := compact_json) (pystr := compact_str)
                     demo_payload demo_payload [] booted
                     ltac:(vm_compute; reflexivity) eq_refl) eq_refl eq_refl
              ltac:(vm_compute; reflexivity) ltac:(vm_compute; reflexivity))
    as (d1 & d2 & w1 & w2 & Hs1 & Hs2 & Hid1 & Hid2 & _).
  exists d1, d2, w1, w2. split; [exact Hs1|]. split; [exact Hs2|].
  split; [exact Hid1|exact Hid2].
Defined.





(** X23 at work: the id a/b on the booted store, and x.json/b next to a
    document x.json. *)
Lemma save_through_a_separator_fails_witness :
  save_conversation (JObj nested_payload) booted
  = (Raise FileNotFoundError, at_write nested_payload booted)
  /\ save_conversation (JObj [("id", JStr "x.json/b")]) (with_document "x.json" (encode "{}"))
     = (Raise NotADirectoryError,
        at_write [("id", JStr "x.json/b")] (with_document "x.json" (encode "{}"))).
Proof.
  split.
  - exact (proj1 (save_through_a_separator_fails (codec := compact_json) (pystr := compact_str)
                    nested_payload "a" "b" booted eq_refl
                    ltac:(vm_compute; reflexivity) ltac:(vm_compute; reflexivity)
                    ltac:(vm_compute; lia))).
  - exact (proj1 (save_through_a_separator_fails (codec := compact_json) (pystr := compact_str)
                    [("id", JStr "x.json/b")] "x.json" "b"
                    (with_document "x.json" (encode "{}")) eq_refl
                    ltac:(vm_compute; reflexivity) ltac:(vm_compute; reflexivity)
                    ltac:(vm_compute; lia))).
Defined.


